(** * generate_image.py: the image compositor

    A shallow embedding of [src/image_generator/generate_image.py] and the
    properties of its three functions, [load_image_from_url],
    [load_image_from_path_or_url] and [main].

    The script talks to four things that are not part of it: the file
    system, the network (through [requests]), the standard output and the
    imaging library (PIL).  The first three are fields of a [World] that is
    threaded through a state-and-exception monad; the codecs of the imaging
    library, its resampling and the JSON reader are the operations of the
    class [Library], so that every statement holds for any implementation
    of them. *)

From Stdlib Require Import ZArith String Ascii SpecFloat.
From Stdlib.Strings Require Import Byte.
From stdpp Require Import base option list strings gmap.

Local Open Scope string_scope.

(** ** Python values read from the job descriptor *)

(** What [json.load] can return: [None], a [bool], an [int], a [float],
    a [str], a [list] or a [dict] keyed by strings. *)
#[warnings="-register-all"] Inductive json : Type :=
| JNone
| JBool (b : bool)
| JInt (n : Z)
| JFloat (f : spec_float)
| JStr (s : string)
| JList (l : list json)
| JDict (d : gmap string json).

(** Python truth value, as tested by [if not template_url] and
    [if user_image_path]. *)
Definition truthy (v : json) : bool :=
  match v with
  | JNone => false
  | JBool b => b
  | JInt n => negb (Z.eqb n 0)
  | JFloat (S754_zero _) => false
  | JFloat _ => true
  | JStr s => negb (String.eqb s EmptyString)
  | JList l => negb (Nat.eqb (length l) 0)
  | JDict d => negb (Nat.eqb (size d) 0)
  end.

(** ** Raster images *)

(** One RGBA pixel: four 8-bit channels. *)
Record pixel : Type := RGBA { red : byte; green : byte; blue : byte; alpha : byte }.

(** A decoded image in mode RGBA: its size and its pixels, row by row. *)
Record Image : Type := mkImage {
  width : nat;
  height : nat;
  pixels : list pixel
}.

(** An image buffer holds exactly [width * height] pixels. *)
Definition well_formed (im : Image) : Prop :=
  length (pixels im) = (width im * height im)%nat.

(** [im.getpixel((x, y))], [None] outside the image. *)
Definition getpixel (im : Image) (x y : nat) : option pixel :=
  if (x <? width im)%nat && (y <? height im)%nat
  then pixels im !! (y * width im + x)%nat
  else None.

(** Is the pixel at [(x, y)] inside the box whose top-left corner is
    [(x0, y0)] and whose size is [w] by [h]? *)
Definition in_box (x0 y0 w h x y : nat) : bool :=
  (x0 <=? x)%nat && (x <? x0 + w)%nat && (y0 <=? y)%nat && (y <? y0 + h)%nat.

(** [im.paste(src, (x0, y0))] with no mask argument: the rectangle of the
    size of [src] at [(x0, y0)], clipped to [im], is overwritten with the
    pixels of [src], all four channels.  The size of [im] does not
    change. *)
Definition paste (im src : Image) (box : nat * nat) : Image :=
  let '(x0, y0) := box in
  mkImage (width im) (height im)
    (imap (fun i p =>
             let x := (i mod width im)%nat in
             let y := (i / width im)%nat in
             if in_box x0 y0 (width src) (height src) x y
             then default p (getpixel src (x - x0) (y - y0))
             else p)
          (pixels im)).

(** ** Exceptions and the world *)

Inductive exn : Type :=
| SystemExit (code : Z)
| FileNotFoundError (path : string)
| UnicodeDecodeError
| JSONDecodeError
| AttributeError
| RequestException
| HTTPError (status_code : Z)
| UnidentifiedImageError
| SaveError.

(** What [requests.get] comes back with: a response with a status code and
    a body, or a failure below HTTP (no connection, no usable URL). *)
Inductive get_outcome : Type :=
| Response (status_code : Z) (content : list byte)
| NoResponse.

(** The calls that leave the process, in the order they are made. *)
Inductive event : Type :=
| OPEN_TEXT (path : string)
| GET (url : string)
| OPEN_IMAGE (path : string)
| SAVE (path : string) (im : Image).

Record World : Type := mkWorld {
  argv : list string;
  files : gmap string (list byte);
  http : string -> get_outcome;
  stdout : list string;
  trace : list event
}.

Inductive result (A : Type) : Type :=
| Ok (a : A)
| Raise (e : exn).
Arguments Ok {A} a.
Arguments Raise {A} e.

(** A computation reads and changes the world and returns or raises. *)
Definition M (A : Type) : Type := World -> result A * World.

#[global] Instance M_ret : MRet M := fun A a w => (Ok a, w).
#[global] Instance M_bind : MBind M := fun A B f m w =>
  match m w with
  | (Ok a, w') => f a w'
  | (Raise e, w') => (Raise e, w')
  end.

Definition raise {A : Type} (e : exn) : M A := fun w => (Raise e, w).

(** The three ways the world changes. *)
Definition with_trace (w : World) (evs : list event) : World :=
  mkWorld (argv w) (files w) (http w) (stdout w) (trace w ++ evs).

Definition printed (w : World) (s : string) : World :=
  mkWorld (argv w) (files w) (http w) (stdout w ++ [s]) (trace w).

Definition written (w : World) (path : string) (bytes : list byte) : World :=
  mkWorld (argv w) (<[path := bytes]> (files w)) (http w) (stdout w) (trace w).

(** After a save that failed, [path] holds what the library left there,
    or nothing. *)
Definition left_with (w : World) (path : string) (content : option (list byte))
  : World :=
  mkWorld (argv w)
          (match content with
           | Some bytes => <[path := bytes]> (files w)
           | None => delete path (files w)
           end)
          (http w) (stdout w) (trace w).

Definition log (ev : event) : M unit := fun w => (Ok tt, with_trace w [ev]).

Definition print (s : string) : M unit := fun w => (Ok tt, printed w s).

Definition sys_exit {A : Type} (code : Z) : M A := raise (SystemExit code).

Definition sys_argv : M (list string) := fun w => (Ok (argv w), w).

(** The exit status of the process: 0 on return, the code of a
    [SystemExit], 1 on any other uncaught exception. *)
Definition exit_status {A : Type} (r : result A) : Z :=
  match r with
  | Ok _ => 0%Z
  | Raise (SystemExit code) => code
  | Raise _ => 1%Z
  end.

(** ** Text files *)

(** The bytes of a file opened with [encoding='utf-8'] are decoded when
    they are read, and the strict decoder accepts exactly the well-formed
    sequences: no stray continuation byte, no overlong form, no surrogate
    and nothing above U+10FFFF. *)
Definition in_range (lo hi : N) (b : byte) : bool :=
  (lo <=? Byte.to_N b)%N && (Byte.to_N b <=? hi)%N.

Definition continuation (b : byte) : bool := in_range 128 191 b.

(** The lead byte and the range of the second byte of a sequence of three
    or of four bytes. *)
Definition three_bytes (b0 b1 : byte) : bool :=
  (in_range 224 224 b0 && in_range 160 191 b1) ||
  (in_range 225 236 b0 && continuation b1) ||
  (in_range 237 237 b0 && in_range 128 159 b1) ||
  (in_range 238 239 b0 && continuation b1).

Definition four_bytes (b0 b1 : byte) : bool :=
  (in_range 240 240 b0 && in_range 144 191 b1) ||
  (in_range 241 243 b0 && continuation b1) ||
  (in_range 244 244 b0 && in_range 128 143 b1).

Fixpoint utf8_valid (bytes : list byte) : bool :=
  match bytes with
  | [] => true
  | b0 :: rest =>
      if in_range 0 127 b0 then utf8_valid rest
      else if in_range 194 223 b0 then
        match rest with
        | b1 :: rest => continuation b1 && utf8_valid rest
        | _ => false
        end
      else if in_range 224 239 b0 then
        match rest with
        | b1 :: b2 :: rest =>
            three_bytes b0 b1 && continuation b2 && utf8_valid rest
        | _ => false
        end
      else if in_range 240 244 b0 then
        match rest with
        | b1 :: b2 :: b3 :: rest =>
            four_bytes b0 b1 && continuation b2 && continuation b3 &&
            utf8_valid rest
        | _ => false
        end
      else false
  end.

(** ** The libraries the script calls *)

(** The operations of [json] and PIL that the script uses. *)
Class Library : Type := {
  (** an image as opened, in the mode of its file *)
  RawImage : Type;
  (** [json.load] on the text of a file, given as its UTF-8 bytes *)
  json_load : list byte -> option json;
  (** [Image.open] on a byte stream or on the bytes of a file *)
  Image_open : list byte -> option RawImage;
  (** [.convert("RGBA")] *)
  convert_RGBA : RawImage -> Image;
  (** [.resize(size)] *)
  resize : Image -> nat * nat -> Image;
  (** the encoder that [.save(path)] selects from the extension of [path] *)
  encode : string -> Image -> option (list byte);
  (** what a [.save(path)] that fails leaves at [path], given what was
      there: the file untouched when the extension is refused before the
      file is opened, a file cut short or removed when the encoder fails
      after it *)
  save_leaves : string -> Image -> option (list byte) -> option (list byte)
}.

(** The two facts about PIL that the pixel-level statements need: a
    converted or resampled image is a full buffer, and [resize] returns an
    image of the size it was asked for. *)
Class Lawful (L : Library) : Prop := {
  convert_RGBA_well_formed : forall r, well_formed (convert_RGBA r);
  resize_width : forall im w h, width (resize im (w, h)) = w;
  resize_height : forall im w h, height (resize im (w, h)) = h;
  resize_well_formed : forall im size, well_formed (resize im size)
}.

Section Script.
Context `{L : Library}.

(** [open(path)] followed by reading the whole file. *)
Definition read_file (path : string) : M (list byte) := fun w =>
  match files w !! path with
  | Some bytes => (Ok bytes, w)
  | None => (Raise (FileNotFoundError path), w)
  end.

Definition open_read (ev : string -> event) (path : string) : M (list byte) :=
  _ ← log (ev path); read_file path.

(** The request goes out and the answer, if any, comes back. *)
Definition send (u : string) : M (Z * list byte) := fun w =>
  match http w u with
  | Response status_code content => (Ok (status_code, content), w)
  | NoResponse => (Raise RequestException, w)
  end.

(** [requests.get(url)]: a value that is not a [str] has no URL scheme and
    is rejected before anything is sent. *)
Definition requests_get (url : json) : M (Z * list byte) :=
  match url with
  | JStr u => _ ← log (GET u); send u
  | _ => raise RequestException
  end.

(** [resp.raise_for_status()]: client errors (4xx) and server errors (5xx)
    raise, every other status passes. *)
Definition is_error_status (status_code : Z) : bool :=
  (400 <=? status_code)%Z && (status_code <? 600)%Z.

Definition raise_for_status (status_code : Z) : M unit :=
  if is_error_status status_code then raise (HTTPError status_code) else mret tt.

(** [Image.open(...).convert("RGBA")] on bytes already read. *)
Definition open_convert (bytes : list byte) : M Image :=
  match Image_open bytes with
  | Some raw => mret (convert_RGBA raw)
  | None => raise UnidentifiedImageError
  end.

Definition load_image_from_url (url : json) : M Image :=
  resp ← requests_get url;
  _ ← raise_for_status resp.1;
  open_convert resp.2.

Definition load_image_from_path_or_url (path_or_url : json) : M Image :=
  match path_or_url with
  | JStr s =>
      if String.prefix "http" s
      then load_image_from_url path_or_url
      else bytes ← open_read OPEN_IMAGE s; open_convert bytes
  | _ => raise AttributeError
  end.

(** [data.get(key)]: only a [dict] has the method. *)
Definition dict_get (data : json) (key : string) : M json :=
  match data with
  | JDict d => mret (default JNone (d !! key))
  | _ => raise AttributeError
  end.

(** [with open(path, 'r', encoding='utf-8') as f: json.load(f)]: the
    file is read and decoded as a whole, then parsed. *)
Definition load_json (path : string) : M json :=
  bytes ← open_read OPEN_TEXT path;
  if negb (utf8_valid bytes) then raise UnicodeDecodeError
  else match json_load bytes with
       | Some data => mret data
       | None => raise JSONDecodeError
       end.

Definition write_file (path : string) (bytes : list byte) : M unit := fun w =>
  (Ok tt, written w path bytes).

Definition fail_save (image : Image) (path : string) : M unit := fun w =>
  (Raise SaveError,
   left_with w path (save_leaves path image (files w !! path))).

(** [image.save(output_path)]: the image is encoded for the extension of
    the path and the file is written; when the save fails, the path is
    left as the library leaves it, an earlier file possibly cut short. *)
Definition Image_save (image : Image) (output_path : string) : M unit :=
  _ ← log (SAVE output_path image);
  match encode output_path image with
  | Some bytes => write_file output_path bytes
  | None => fail_save image output_path
  end.

Definition main : M unit :=
  args ← sys_argv;
  match args with
  | [_; input_json_path; output_path] =>
      data ← load_json input_json_path;
      template_url ← dict_get data "template_url";
      if negb (truthy template_url)
      then _ ← print "Missing template_url in input data"; sys_exit 1
      else
        image ← load_image_from_url template_url;
        user_image_path ← dict_get data "user_image_path";
        image ← (if truthy user_image_path
                 then
                   loaded ← load_image_from_path_or_url user_image_path;
                   let user_img := resize loaded (250, 250)%nat in
                   mret (paste image user_img (40, 40)%nat)
                 else mret image);
        Image_save image output_path
  | _ =>
      _ ← print "Usage: generate_image.py input_json_path output_path";
      sys_exit 1
  end.

End Script.

(** Runs are simplified call by call. *)
Arguments paste : simpl never.
Arguments load_image_from_url : simpl never.
Arguments load_image_from_path_or_url : simpl never.
Arguments Image_save : simpl never.
Arguments with_trace : simpl never.
Arguments printed : simpl never.
Arguments written : simpl never.
Arguments left_with : simpl never.

(** ** Vocabulary of the statements *)

Section Vocabulary.
Context `{L : Library}.

(** The run was started as [generate_image.py inp out] and [inp] holds a
    JSON object [d]: the job descriptor. *)
Definition job (w : World) (inp out : string) (d : gmap string json) : Prop :=
  exists prog bytes,
    argv w = [prog; inp; out] /\
    files w !! inp = Some bytes /\
    utf8_valid bytes = true /\
    json_load bytes = Some (JDict d).

(** A field of the descriptor is set to a string that is not empty. *)
Definition field_set (d : gmap string json) (key s : string) : Prop :=
  d !! key = Some (JStr s) /\ s <> EmptyString.

(** The server answers a GET of [u] with a status that is not an error and
    with bytes that decode to [raw]. *)
Definition fetches (w : World) (u : string) (raw : RawImage) : Prop :=
  exists status_code content,
    http w u = Response status_code content /\
    is_error_status status_code = false /\
    Image_open content = Some raw.

(** The local file [p] exists and decodes to [raw]. *)
Definition stored (w : World) (p : string) (raw : RawImage) : Prop :=
  exists bytes, files w !! p = Some bytes /\ Image_open bytes = Some raw.

(** Where the foreground comes from, and the call that fetches it. *)
Definition foreground (w : World) (p : string) (raw : RawImage) : Prop :=
  if String.prefix "http" p then fetches w p raw else stored w p raw.

Definition foreground_event (p : string) : event :=
  if String.prefix "http" p then GET p else OPEN_IMAGE p.

(** The image that [main] builds from a background and a foreground. *)
Definition composite (bg fg : Image) : Image :=
  paste bg (resize fg (250, 250)%nat) (40, 40)%nat.

(** How the run ends when [template_url] is missing. *)
Definition missing_template_outcome (w : World) (inp : string)
  : result unit * World :=
  (Raise (SystemExit 1),
   printed (with_trace w [OPEN_TEXT inp]) "Missing template_url in input data").

(** How the run ends when only the background [bg], fetched from [u], is
    saved as [bytes]. *)
Definition background_only_outcome (w : World) (inp out u : string)
    (bg : Image) (bytes : list byte) : result unit * World :=
  (Ok tt, written (with_trace w [OPEN_TEXT inp; GET u; SAVE out bg]) out bytes).

(** The encoder selected for [out] loses nothing: what it writes decodes
    to the image it was given. *)
Definition lossless (out : string) : Prop :=
  forall im bytes, well_formed im -> encode out im = Some bytes ->
    exists raw, Image_open bytes = Some raw /\ convert_RGBA raw = im.

(** What a GET of [u] followed by the status check and the decoder gives,
    and what opening the local file [p] gives. *)
Definition fetch_result (w : World) (u : string) : result Image :=
  match http w u with
  | Response status_code content =>
      if is_error_status status_code then Raise (HTTPError status_code)
      else match Image_open content with
           | Some raw => Ok (convert_RGBA raw)
           | None => Raise UnidentifiedImageError
           end
  | NoResponse => Raise RequestException
  end.

Definition file_result (w : World) (p : string) : result Image :=
  match files w !! p with
  | Some bytes =>
      match Image_open bytes with
      | Some raw => Ok (convert_RGBA raw)
      | None => Raise UnidentifiedImageError
      end
  | None => Raise (FileNotFoundError p)
  end.

(** The paths through [main], one constructor for each way a run ends:
    [main_run w r w'] when the run from [w] ends with [r] in [w']. *)
Inductive main_run (w : World) : result unit -> World -> Prop :=
| run_usage :
    (forall prog inp out, argv w <> [prog; inp; out]) ->
    main_run w (Raise (SystemExit 1))
      (printed w "Usage: generate_image.py input_json_path output_path")
| run_no_input prog inp out :
    argv w = [prog; inp; out] ->
    files w !! inp = None ->
    main_run w (Raise (FileNotFoundError inp)) (with_trace w [OPEN_TEXT inp])
| run_not_utf8 prog inp out bytes :
    argv w = [prog; inp; out] ->
    files w !! inp = Some bytes ->
    utf8_valid bytes = false ->
    main_run w (Raise UnicodeDecodeError) (with_trace w [OPEN_TEXT inp])
| run_bad_json prog inp out bytes :
    argv w = [prog; inp; out] ->
    files w !! inp = Some bytes ->
    utf8_valid bytes = true ->
    json_load bytes = None ->
    main_run w (Raise JSONDecodeError) (with_trace w [OPEN_TEXT inp])
| run_not_dict prog inp out bytes data :
    argv w = [prog; inp; out] ->
    files w !! inp = Some bytes ->
    utf8_valid bytes = true ->
    json_load bytes = Some data ->
    (forall d, data <> JDict d) ->
    main_run w (Raise AttributeError) (with_trace w [OPEN_TEXT inp])
| run_missing_template inp out d :
    job w inp out d ->
    truthy (default JNone (d !! "template_url")) = false ->
    main_run w (Raise (SystemExit 1))
      (printed (with_trace w [OPEN_TEXT inp]) "Missing template_url in input data")
| run_background_failed inp out d e w1 :
    job w inp out d ->
    truthy (default JNone (d !! "template_url")) = true ->
    load_image_from_url (default JNone (d !! "template_url"))
      (with_trace w [OPEN_TEXT inp]) = (Raise e, w1) ->
    main_run w (Raise e) w1
| run_background_only inp out d bg w1 r w2 :
    job w inp out d ->
    truthy (default JNone (d !! "template_url")) = true ->
    load_image_from_url (default JNone (d !! "template_url"))
      (with_trace w [OPEN_TEXT inp]) = (Ok bg, w1) ->
    truthy (default JNone (d !! "user_image_path")) = false ->
    Image_save bg out w1 = (r, w2) ->
    main_run w r w2
| run_foreground_failed inp out d bg w1 e w2 :
    job w inp out d ->
    truthy (default JNone (d !! "template_url")) = true ->
    load_image_from_url (default JNone (d !! "template_url"))
      (with_trace w [OPEN_TEXT inp]) = (Ok bg, w1) ->
    truthy (default JNone (d !! "user_image_path")) = true ->
    load_image_from_path_or_url (default JNone (d !! "user_image_path")) w1
      = (Raise e, w2) ->
    main_run w (Raise e) w2
| run_composite inp out d bg w1 fg w2 r w3 :
    job w inp out d ->
    truthy (default JNone (d !! "template_url")) = true ->
    load_image_from_url (default JNone (d !! "template_url"))
      (with_trace w [OPEN_TEXT inp]) = (Ok bg, w1) ->
    truthy (default JNone (d !! "user_image_path")) = true ->
    load_image_from_path_or_url (default JNone (d !! "user_image_path")) w1
      = (Ok fg, w2) ->
    Image_save (composite bg fg) out w2 = (r, w3) ->
    main_run w r w3.

End Vocabulary.

(** The events of a run: what the trace gained from [w] to [w']. *)
Definition events (w w' : World) : list event :=
  drop (length (trace w)) (trace w').

Definition is_SAVE (ev : event) : bool :=
  match ev with SAVE _ _ => true | _ => false end.

(** [sub in s] *)
Fixpoint is_substring (sub s : string) : bool :=
  String.prefix sub s ||
  match s with
  | EmptyString => false
  | String _ s' => is_substring sub s'
  end.

(** Paste through the alpha channel of the pasted image, in the words of
    the specification: inside the box a fully transparent pixel of [src]
    leaves the pixel of the background [bg] as it was, and a fully opaque
    one replaces it. *)
Definition alpha_masked (out bg src : Image) (x0 y0 : nat) : Prop :=
  forall x y p q,
    in_box x0 y0 (width src) (height src) x y = true ->
    getpixel bg x y = Some p ->
    getpixel src (x - x0) (y - y0) = Some q ->
    (alpha q = x00 -> getpixel out x y = Some p) /\
    (alpha q = xff -> getpixel out x y = Some q).

(** ** A small library to run the script on

    An implementation of [Library] that computes: a reader for flat JSON
    objects whose values are strings, an uncompressed image format (one
    byte of width, one of height, then four bytes per pixel) and
    nearest-neighbour resampling. *)

Module Reference.

Definition quote : ascii := "034"%char.
Definition backslash : ascii := "092"%char.

(** The characters of a string literal up to its closing quote, and the
    rest of the input; escapes are not read. *)
Fixpoint read_string (cs : list ascii) : option (string * list ascii) :=
  match cs with
  | [] => None
  | c :: rest =>
      if Ascii.eqb c quote then Some (EmptyString, rest)
      else if Ascii.eqb c backslash then None
      else '(s, rest') ← read_string rest; Some (String c s, rest')
  end.

(** The members of an object after its opening brace; a later member
    replaces an earlier one of the same name. *)
Fixpoint read_members (fuel : nat) (cs : list ascii) (acc : gmap string json)
  : option json :=
  match fuel with
  | O => None
  | S fuel =>
      match cs with
      | q :: cs =>
          if Ascii.eqb q quote then
            '(k, cs) ← read_string cs;
            match cs with
            | ":"%char :: q' :: cs =>
                if Ascii.eqb q' quote then
                  '(v, cs) ← read_string cs;
                  match cs with
                  | ["}"%char] => Some (JDict (<[k := JStr v]> acc))
                  | ","%char :: cs => read_members fuel cs (<[k := JStr v]> acc)
                  | _ => None
                  end
                else None
            | _ => None
            end
          else None
      | [] => None
      end
  end.

Definition read_json (bytes : list byte) : option json :=
  match map ascii_of_byte bytes with
  | ["{"%char; "}"%char] => Some (JDict ∅)
  | "{"%char :: cs => read_members (length cs) cs ∅
  | _ => None
  end.

(** The text of a flat object with the given members. *)
Definition quoted (s : string) : string :=
  String quote (String.append s (String quote EmptyString)).

Fixpoint members_text (fields : list (string * string)) : string :=
  match fields with
  | [] => "}"
  | [(k, v)] => String.append (quoted k) (String.append ":" (String.append (quoted v) "}"))
  | (k, v) :: rest =>
      String.append (quoted k)
        (String.append ":" (String.append (quoted v) (String.append "," (members_text rest))))
  end.

Definition object_text (fields : list (string * string)) : list byte :=
  list_byte_of_string (String "{" (members_text fields)).

(** The image format. *)
Definition pixel_bytes (p : pixel) : list byte :=
  [red p; green p; blue p; alpha p].

Fixpoint read_pixels (bytes : list byte) : option (list pixel) :=
  match bytes with
  | [] => Some []
  | r :: g :: b :: a :: rest => cons (RGBA r g b a) <$> read_pixels rest
  | _ => None
  end.

Definition read_image (bytes : list byte) : option Image :=
  match bytes with
  | w :: h :: rest => mkImage (Byte.to_nat w) (Byte.to_nat h) <$> read_pixels rest
  | _ => None
  end.

Definition write_image (path : string) (im : Image) : option (list byte) :=
  if Nat.eqb (length (pixels im)) (width im * height im) then
    w ← Byte.of_nat (width im);
    h ← Byte.of_nat (height im);
    Some (w :: h :: flat_map pixel_bytes (pixels im))
  else None.

Definition transparent : pixel := RGBA x00 x00 x00 x00.

(** Conversion pads or cuts the buffer to the size in the header. *)
Definition to_RGBA (raw : Image) : Image :=
  let n := (width raw * height raw)%nat in
  mkImage (width raw) (height raw) (take n (pixels raw ++ replicate n transparent)).

(** A save that fails empties the file that was there and leaves no new
    one. *)
Definition cut_short (path : string) (im : Image) (old : option (list byte))
  : option (list byte) :=
  match old with
  | Some _ => Some []
  | None => None
  end.

Definition nearest (im : Image) (size : nat * nat) : Image :=
  let '(w, h) := size in
  mkImage w h
    (y ← seq 0 h;
     (fun x => default transparent
                 (getpixel im (x * width im / w) (y * height im / h)))
       <$> seq 0 w).

#[export] Instance library : Library := {|
  RawImage := Image;
  json_load := read_json;
  Image_open := read_image;
  convert_RGBA := to_RGBA;
  resize := nearest;
  encode := write_image;
  save_leaves := cut_short
|}.

(** *** Worlds to run it in *)

Definition red_pixel : pixel := RGBA xff x00 x00 xff.

(** An opaque red background of 42 by 42 pixels, and a foreground of one
    fully transparent pixel. *)
Definition red_square : Image := mkImage 42 42 (replicate (42 * 42) red_pixel).
Definition clear_dot : Image := mkImage 1 1 [transparent].

Definition image_bytes (im : Image) : list byte :=
  default [] (write_image EmptyString im).

Definition server (u : string) : get_outcome :=
  if String.eqb u "http://templates.example/red.img"
  then Response 200 (image_bytes red_square)
  else if String.eqb u "local/red.img"
  then Response 200 (image_bytes red_square)
  else if String.eqb u "http://templates.example/dot.img"
  then Response 200 (image_bytes clear_dot)
  else if String.eqb u "http://templates.example/gone.img"
  then Response 404 []
  else NoResponse.

Definition disk (fields : list (string * string)) : gmap string (list byte) :=
  {[ "job.json" := object_text fields; "dot.img" := image_bytes clear_dot ]}.

(** A world in which the script was started on a descriptor with the given
    fields. *)
Definition world (fields : list (string * string)) : World :=
  mkWorld ["generate_image.py"; "job.json"; "out.img"] (disk fields) server [] [].

Definition both_fields : list (string * string) :=
  [("template_url", "http://templates.example/red.img");
   ("user_image_path", "dot.img")].

Definition template_only : list (string * string) :=
  [("template_url", "http://templates.example/red.img")].

Definition gone_template : list (string * string) :=
  [("template_url", "http://templates.example/gone.img")].

Definition missing_foreground : list (string * string) :=
  [("template_url", "http://templates.example/red.img");
   ("user_image_path", "nothere.img")].

Definition no_template : list (string * string) :=
  [("user_image_path", "dot.img")].



Definition local_template : list (string * string) :=
  [("template_url", "local/red.img")].

(** The descriptor that [object_text fields] is read as. *)
Definition descriptor (fields : list (string * string)) : gmap string json :=
  list_to_map ((fun kv => (kv.1, JStr kv.2)) <$> fields).

End Reference.

(** ** Values that count as false, and more worlds *)

(** The values that Python takes for false, as [json.load] can return
    them: [None], [False], [0], [0.0] and [-0.0], and the empty string,
    list and dict. *)
Definition falsy_value (v : json) : Prop :=
  v = JNone \/ v = JBool false \/ v = JInt 0 \/
  (exists s, v = JFloat (S754_zero s)) \/
  v = JStr EmptyString \/ v = JList [] \/ v = JDict ∅.

(** The two calls that can resolve a foreground. *)
Definition is_load (ev : event) : bool :=
  match ev with
  | GET _ | OPEN_IMAGE _ => true
  | _ => false
  end.

Definition usage_message : string :=
  "Usage: generate_image.py input_json_path output_path".

(** What resolving the foreground locator [p] gives: the answer of the
    server for a string that starts with [http], the local file for any
    other. *)
Definition foreground_result `{L : Library} (w : World) (p : string)
  : result Image :=
  if String.prefix "http" p then fetch_result w p else file_result w p.

Module Variants.
Import Reference.

(** The small library with a JSON reader that answers [data] whatever the
    text is, to run the script on descriptors that hold other values than
    strings. *)
Definition reader_library (data : json) : Library := {|
  RawImage := Image;
  json_load := fun _ => Some data;
  Image_open := read_image;
  convert_RGBA := to_RGBA;
  resize := nearest;
  encode := write_image;
  save_leaves := cut_short
|}.

(** A background of 10 by 10 pixels, which the box at (40, 40) misses. *)
Definition small_square : Image := mkImage 10 10 (replicate (10 * 10) red_pixel).

Definition small_server (u : string) : get_outcome :=
  if String.eqb u "http://templates.example/small.img"
  then Response 200 (image_bytes small_square)
  else server u.

Definition small_world (fields : list (string * string)) : World :=
  mkWorld ["generate_image.py"; "job.json"; "out.img"] (disk fields)
          small_server [] [].

Definition small_fields : list (string * string) :=
  [("template_url", "http://templates.example/small.img");
   ("user_image_path", "dot.img")].

(** A world with the given command line and no descriptor file. *)
Definition bare_world (args : list string) : World :=
  mkWorld args {[ "dot.img" := image_bytes clear_dot ]} server [] [].

(** A world whose descriptor file holds [text]. *)
Definition text_world (text : string) : World :=
  mkWorld ["generate_image.py"; "job.json"; "out.img"]
          {[ "job.json" := list_byte_of_string text ]} server [] [].

(** A world whose descriptor file holds the given bytes. *)
Definition bytes_world (bytes : list byte) : World :=
  mkWorld ["generate_image.py"; "job.json"; "out.img"]
          {[ "job.json" := bytes ]} server [] [].

(** Both fields name the same URL. *)
Definition same_url : list (string * string) :=
  [("template_url", "http://templates.example/dot.img");
   ("user_image_path", "http://templates.example/dot.img")].

(** Descriptors that hold other values than strings. *)
Definition zero_template : gmap string json :=
  {[ "template_url" := JInt 0 ]}.

Definition number_template : gmap string json :=
  {[ "template_url" := JInt 5 ]}.

Definition null_user : gmap string json :=
  {[ "template_url" := JStr "http://templates.example/red.img";
     "user_image_path" := JNone ]}.

Definition list_user : gmap string json :=
  {[ "template_url" := JStr "http://templates.example/red.img";
     "user_image_path" := JList [JStr "dot.img"] ]}.

End Variants.

(** ** Pixels before and after [paste] *)

Section Paste.
Implicit Types (im src : Image) (x y : nat).

Lemma index_col im x y :
  (x < width im)%nat -> ((y * width im + x) mod width im)%nat = x.
Proof.
  intros Hx. symmetry. apply (Nat.mod_unique _ _ y); lia.
Qed.

Lemma index_row im x y :
  (x < width im)%nat -> ((y * width im + x) / width im)%nat = y.
Proof.
  intros Hx. symmetry. apply (Nat.div_unique _ _ _ x); lia.
Qed.

Lemma getpixel_inside im x y :
  (x < width im)%nat -> (y < height im)%nat ->
  getpixel im x y = pixels im !! (y * width im + x)%nat.
Proof.
  intros Hx Hy. unfold getpixel.
  apply Nat.ltb_lt in Hx, Hy. now rewrite Hx, Hy.
Qed.

Lemma getpixel_outside im x y :
  (width im <= x)%nat \/ (height im <= y)%nat -> getpixel im x y = None.
Proof.
  intros H. unfold getpixel.
  destruct (Nat.ltb_spec x (width im)), (Nat.ltb_spec y (height im));
    simpl; try reflexivity; lia.
Qed.

Lemma getpixel_is_Some im x y :
  well_formed im -> (x < width im)%nat -> (y < height im)%nat ->
  is_Some (getpixel im x y).
Proof.
  intros Hwf Hx Hy. rewrite getpixel_inside by assumption.
  apply lookup_lt_is_Some. rewrite Hwf. nia.
Qed.

Lemma paste_width im src box : width (paste im src box) = width im.
Proof. now destruct box. Qed.

Lemma paste_height im src box : height (paste im src box) = height im.
Proof. now destruct box. Qed.

Lemma paste_well_formed im src box :
  well_formed im -> well_formed (paste im src box).
Proof.
  destruct box. unfold well_formed. simpl. now rewrite length_imap.
Qed.

(** Outside the box nothing changes, whatever the two images are. *)
Lemma paste_frame im src (x0 y0 : nat) x y :
  in_box x0 y0 (width src) (height src) x y = false ->
  getpixel (paste im src (x0, y0)) x y = getpixel im x y.
Proof.
  intros Hbox.
  destruct (Nat.lt_ge_cases x (width im)) as [Hx|Hx];
    [destruct (Nat.lt_ge_cases y (height im)) as [Hy|Hy]|].
  - rewrite !getpixel_inside by assumption. simpl.
    rewrite list_lookup_imap, index_col, index_row, Hbox by assumption.
    now destruct (pixels im !! _).
  - rewrite !getpixel_outside; auto.
  - rewrite !getpixel_outside; auto.
Qed.

(** Inside the box, and inside the image, the pixel is the one of the
    pasted image: all four channels, whatever its alpha. *)
Lemma paste_inside im src (x0 y0 : nat) x y :
  well_formed im -> well_formed src ->
  (x < width im)%nat -> (y < height im)%nat ->
  in_box x0 y0 (width src) (height src) x y = true ->
  getpixel (paste im src (x0, y0)) x y = getpixel src (x - x0) (y - y0).
Proof.
  intros Him Hsrc Hx Hy Hbox.
  destruct (getpixel_is_Some im x y Him Hx Hy) as [p Hp].
  assert (Hin : is_Some (getpixel src (x - x0) (y - y0))).
  { unfold in_box in Hbox. apply getpixel_is_Some; [assumption| |];
      repeat (apply andb_prop in Hbox; destruct Hbox as [Hbox ?]);
      repeat match goal with
             | H : (_ <=? _)%nat = true |- _ => apply Nat.leb_le in H
             | H : (_ <? _)%nat = true |- _ => apply Nat.ltb_lt in H
             end; lia. }
  destruct Hin as [q Hq].
  rewrite getpixel_inside in Hp by assumption.
  rewrite (getpixel_inside (paste im src (x0, y0))) by assumption. simpl.
  rewrite list_lookup_imap, index_col, index_row, Hbox, Hp, Hq by assumption.
  reflexivity.
Qed.

End Paste.

(** ** Running the parts of the script *)

Section Runs.
Context `{L : Library}.

Lemma with_trace_app w evs evs' :
  with_trace (with_trace w evs) evs' = with_trace w (evs ++ evs').
Proof. unfold with_trace. simpl. now rewrite <- app_assoc. Qed.

Lemma events_with_trace w evs : events w (with_trace w evs) = evs.
Proof. unfold events. simpl. now rewrite drop_app_length. Qed.

Lemma events_refl w : events w w = [].
Proof. unfold events. apply drop_all. Qed.

Lemma events_printed w w' s : events w (printed w' s) = events w w'.
Proof. reflexivity. Qed.

Lemma events_written w w' path bytes :
  events w (written w' path bytes) = events w w'.
Proof. reflexivity. Qed.

Lemma events_left_with w w' path content :
  events w (left_with w' path content) = events w w'.
Proof. reflexivity. Qed.

Lemma bind_run {A B} (m : M A) (k : A -> M B) w :
  (m ≫= k) w =
  match m w with
  | (Ok a, w') => k a w'
  | (Raise e, w') => (Raise e, w')
  end.
Proof. reflexivity. Qed.

(** What a load from the network does, in every case: one GET, then the
    status check, then the decoder. *)
Lemma load_image_from_url_run u w :
  load_image_from_url (JStr u) w = (fetch_result w u, with_trace w [GET u]).
Proof.
  unfold load_image_from_url, requests_get, send, raise_for_status,
    open_convert, fetch_result.
  rewrite !bind_run. unfold log. simpl.
  destruct (http w u) as [status_code content|]; [|reflexivity].
  rewrite bind_run. simpl.
  destruct (is_error_status status_code); [reflexivity|].
  simpl. now destruct (Image_open content).
Qed.

(** What a load from the file system does. *)
Lemma load_local_run p w :
  String.prefix "http" p = false ->
  load_image_from_path_or_url (JStr p) w =
  (file_result w p, with_trace w [OPEN_IMAGE p]).
Proof.
  intros Hp. unfold load_image_from_path_or_url. rewrite Hp.
  unfold open_read, read_file, open_convert, log, file_result.
  rewrite !bind_run. simpl.
  destruct (files w !! p) as [bytes|]; [|reflexivity].
  now destruct (Image_open bytes).
Qed.

Lemma load_remote_run p w :
  String.prefix "http" p = true ->
  load_image_from_path_or_url (JStr p) w = load_image_from_url (JStr p) w.
Proof. intros Hp. unfold load_image_from_path_or_url. now rewrite Hp. Qed.

Lemma fetches_run w u raw :
  fetches w u raw ->
  load_image_from_url (JStr u) w = (Ok (convert_RGBA raw), with_trace w [GET u]).
Proof.
  intros (status_code & content & Hresp & Hok & Hraw).
  rewrite load_image_from_url_run. unfold fetch_result.
  now rewrite Hresp, Hok, Hraw.
Qed.

Lemma foreground_run w p raw :
  foreground w p raw ->
  load_image_from_path_or_url (JStr p) w =
  (Ok (convert_RGBA raw), with_trace w [foreground_event p]).
Proof.
  unfold foreground, foreground_event.
  destruct (String.prefix "http" p) eqn:Hp; intros H.
  - rewrite load_remote_run by assumption. now apply fetches_run.
  - destruct H as (bytes & Hfile & Hraw).
    rewrite load_local_run by assumption. unfold file_result.
    now rewrite Hfile, Hraw.
Qed.

Lemma truthy_field_set d key s :
  field_set d key s -> truthy (default JNone (d !! key)) = true.
Proof.
  intros [-> Hs]. simpl. destruct s; [congruence|reflexivity].
Qed.

(** The script up to the point where the descriptor has been read. *)
Lemma main_job w inp out d :
  job w inp out d ->
  main w =
  (template_url ← dict_get (JDict d) "template_url";
   if negb (truthy template_url)
   then _ ← print "Missing template_url in input data"; sys_exit 1
   else
     image ← load_image_from_url template_url;
     user_image_path ← dict_get (JDict d) "user_image_path";
     image ← (if truthy user_image_path
              then
                loaded ← load_image_from_path_or_url user_image_path;
                let user_img := resize loaded (250, 250)%nat in
                mret (paste image user_img (40, 40)%nat)
              else mret image);
     Image_save image out) (with_trace w [OPEN_TEXT inp]).
Proof.
  intros (prog & bytes & Hargv & Hfile & Hutf8 & Hjson).
  unfold main, sys_argv. rewrite bind_run. rewrite Hargv.
  unfold load_json, open_read, read_file, log.
  rewrite !bind_run. simpl. rewrite Hfile, Hutf8. simpl.
  rewrite Hjson. reflexivity.
Qed.

End Runs.

(** ** Whole runs *)

Section Scenarios.
Context `{L : Library}.

Lemma save_run image out bytes w :
  encode out image = Some bytes ->
  Image_save image out w =
  (Ok tt, written (with_trace w [SAVE out image]) out bytes).
Proof.
  intros Henc. unfold Image_save, log, write_file.
  rewrite bind_run, Henc. reflexivity.
Qed.

(** No usable [template_url]: the message, then exit 1. *)
Lemma main_missing w inp out d :
  job w inp out d ->
  truthy (default JNone (d !! "template_url")) = false ->
  main w = missing_template_outcome w inp.
Proof.
  intros Hjob Hfalsy. rewrite (main_job _ _ _ _ Hjob).
  unfold dict_get. rewrite bind_run. simpl. now rewrite Hfalsy.
Qed.

(** No usable [user_image_path]: the background is saved as fetched. *)
Lemma main_background_only w inp out d u raw bytes :
  job w inp out d ->
  field_set d "template_url" u ->
  truthy (default JNone (d !! "user_image_path")) = false ->
  fetches w u raw ->
  encode out (convert_RGBA raw) = Some bytes ->
  main w = background_only_outcome w inp out u (convert_RGBA raw) bytes.
Proof.
  intros Hjob Htpl Huser Hbg Henc. rewrite (main_job _ _ _ _ Hjob).
  unfold dict_get. rewrite bind_run. simpl.
  rewrite (truthy_field_set _ _ _ Htpl). destruct Htpl as [-> _]. simpl.
  rewrite bind_run.
  rewrite (fetches_run (with_trace w [OPEN_TEXT inp]) u raw Hbg).
  rewrite bind_run. simpl. rewrite Huser, bind_run. simpl.
  rewrite (save_run _ _ _ _ Henc), !with_trace_app. reflexivity.
Qed.

(** Both fields usable: the composite is saved. *)
Lemma main_both w inp out d u p rawbg rawfg bytes :
  job w inp out d ->
  field_set d "template_url" u ->
  field_set d "user_image_path" p ->
  fetches w u rawbg ->
  foreground w p rawfg ->
  encode out (composite (convert_RGBA rawbg) (convert_RGBA rawfg)) = Some bytes ->
  main w =
  (Ok tt,
   written (with_trace w [OPEN_TEXT inp; GET u; foreground_event p;
                          SAVE out (composite (convert_RGBA rawbg)
                                              (convert_RGBA rawfg))])
           out bytes).
Proof.
  intros Hjob Htpl Huser Hbg Hfg Henc. rewrite (main_job _ _ _ _ Hjob).
  unfold dict_get. rewrite bind_run. simpl.
  rewrite (truthy_field_set _ _ _ Htpl). destruct Htpl as [-> _]. simpl.
  rewrite bind_run.
  rewrite (fetches_run (with_trace w [OPEN_TEXT inp]) u rawbg Hbg).
  rewrite bind_run. simpl.
  rewrite (truthy_field_set _ _ _ Huser). destruct Huser as [-> _]. simpl.
  rewrite !bind_run.
  rewrite (foreground_run (with_trace (with_trace w [OPEN_TEXT inp]) [GET u])
             p rawfg Hfg).
  simpl. fold (composite (convert_RGBA rawbg) (convert_RGBA rawfg)).
  rewrite (save_run _ _ _ _ Henc), !with_trace_app. reflexivity.
Qed.

(** Every run of [main] follows one of the paths of [main_run]. *)
Lemma main_runs w : main_run w (main w).1 (main w).2.
Proof.
  destruct (argv w) as [|prog [|inp [|out [|extra rest]]]] eqn:Hargv.
  1-3, 5:
    assert (Hrun : main w =
      (Raise (SystemExit 1),
       printed w "Usage: generate_image.py input_json_path output_path"))
      by (unfold main, sys_argv; rewrite bind_run, Hargv; reflexivity);
    rewrite Hrun; apply run_usage; intros ? ? ?; rewrite Hargv; discriminate.
  destruct (files w !! inp) as [bytes|] eqn:Hfile.
  2: { assert (Hrun : main w = (Raise (FileNotFoundError inp),
                                with_trace w [OPEN_TEXT inp])).
       { unfold main, sys_argv, load_json, open_read, read_file, log.
         rewrite !bind_run, Hargv, !bind_run. simpl. now rewrite Hfile. }
       rewrite Hrun. now apply (run_no_input w prog inp out). }
  destruct (utf8_valid bytes) eqn:Hutf8.
  2: { assert (Hrun : main w = (Raise UnicodeDecodeError,
                                with_trace w [OPEN_TEXT inp])).
       { unfold main, sys_argv, load_json, open_read, read_file, log.
         rewrite !bind_run, Hargv, !bind_run. simpl. now rewrite Hfile, Hutf8. }
       rewrite Hrun. now apply (run_not_utf8 w prog inp out bytes). }
  destruct (json_load bytes) as [data|] eqn:Hjson.
  2: { assert (Hrun : main w = (Raise JSONDecodeError,
                                with_trace w [OPEN_TEXT inp])).
       { unfold main, sys_argv, load_json, open_read, read_file, log.
         rewrite !bind_run, Hargv, !bind_run. simpl.
         rewrite Hfile, Hutf8. simpl. now rewrite Hjson. }
       rewrite Hrun. now apply (run_bad_json w prog inp out bytes). }
  destruct (match data with JDict d => Some d | _ => None end) as [d|] eqn:Hdata.
  2: { assert (Hrun : main w = (Raise AttributeError,
                                with_trace w [OPEN_TEXT inp])).
       { unfold main, sys_argv, load_json, open_read, read_file, log.
         rewrite !bind_run, Hargv, !bind_run. simpl.
         rewrite Hfile, Hutf8. simpl. rewrite Hjson.
         simpl. rewrite bind_run. now destruct data. }
       rewrite Hrun. apply (run_not_dict w prog inp out bytes data);
         try assumption. intros d ->. discriminate. }
  assert (data = JDict d) as -> by (destruct data; congruence).
  assert (Hjob : job w inp out d) by (now exists prog, bytes).
  rewrite (main_job _ _ _ _ Hjob). unfold dict_get. rewrite bind_run. simpl.
  destruct (truthy (default JNone (d !! "template_url"))) eqn:Htpl; simpl.
  2: { now apply (run_missing_template w inp out d). }
  rewrite bind_run.
  destruct (load_image_from_url _ _) as [[bg|e] w1] eqn:Hbg.
  2: { now apply (run_background_failed w inp out d). }
  rewrite bind_run. simpl.
  destruct (truthy (default JNone (d !! "user_image_path"))) eqn:Huser.
  2: { rewrite bind_run. simpl.
       apply (run_background_only w inp out d bg w1); try assumption.
       now destruct (Image_save bg out w1). }
  rewrite !bind_run.
  destruct (load_image_from_path_or_url _ _) as [[fg|e] w2] eqn:Hfg.
  2: { now apply (run_foreground_failed w inp out d bg w1). }
  simpl. fold (composite bg fg).
  apply (run_composite w inp out d bg w1 fg w2); try assumption.
  now destruct (Image_save (composite bg fg) out w2).
Qed.

End Scenarios.

(** ** The composite *)

Section Composite.
Context `{L : Library} {HL : Lawful L}.

(** C1 (amended): for a job with both [template_url] and [user_image_path]
    set, the image written to the output path is the decoded RGBA
    background with the foreground stretched to exactly 250 by 250 pixels
    and pasted at offset (40, 40) with no mask: inside that box, as far as
    it lies within the background, every pixel is the pixel of the
    stretched foreground, all four channels and whatever its alpha; every
    other pixel is the background's. *)
Theorem paste_overwrites_box w inp out d u p rawbg rawfg bytes :
  job w inp out d ->
  field_set d "template_url" u ->
  field_set d "user_image_path" p ->
  fetches w u rawbg ->
  foreground w p rawfg ->
  encode out (composite (convert_RGBA rawbg) (convert_RGBA rawfg)) = Some bytes ->
  let bg := convert_RGBA rawbg in
  let fg := resize (convert_RGBA rawfg) (250, 250)%nat in
  let image := composite bg (convert_RGBA rawfg) in
  main w =
    (Ok tt,
     written (with_trace w [OPEN_TEXT inp; GET u; foreground_event p;
                            SAVE out image]) out bytes) /\
  (width fg = 250 /\ height fg = 250)%nat /\
  (width image = width bg /\ height image = height bg) /\
  forall x y, (x < width bg)%nat -> (y < height bg)%nat ->
    getpixel image x y =
    if in_box 40 40 250 250 x y
    then getpixel fg (x - 40) (y - 40)
    else getpixel bg x y.
Proof.
  intros Hjob Htpl Huser Hbg Hfg Henc bg fg image.
  split; [now apply (main_both w inp out d u p rawbg rawfg bytes)|].
  split; [split; [apply resize_width|apply resize_height]|].
  split; [split; [apply paste_width|apply paste_height]|].
  intros x y Hx Hy. subst image. unfold composite. fold fg.
  destruct (in_box 40 40 250 250 x y) eqn:Hbox.
  - apply paste_inside; try assumption.
    + apply convert_RGBA_well_formed.
    + apply resize_well_formed.
    + unfold fg. now rewrite resize_width, resize_height.
  - apply paste_frame. unfold fg. now rewrite resize_width, resize_height.
Qed.

(** C2: for a job with both fields set, every pixel of the background
    outside the 250 by 250 box whose top-left corner is at (40, 40) is
    unchanged in the image that is written, and so is the size of the
    image. *)
Theorem pixels_outside_box_unchanged w inp out d u p rawbg rawfg bytes :
  job w inp out d ->
  field_set d "template_url" u ->
  field_set d "user_image_path" p ->
  fetches w u rawbg ->
  foreground w p rawfg ->
  encode out (composite (convert_RGBA rawbg) (convert_RGBA rawfg)) = Some bytes ->
  exists image,
    main w =
      (Ok tt,
       written (with_trace w [OPEN_TEXT inp; GET u; foreground_event p;
                              SAVE out image]) out bytes) /\
    encode out image = Some bytes /\
    width image = width (convert_RGBA rawbg) /\
    height image = height (convert_RGBA rawbg) /\
    forall x y, in_box 40 40 250 250 x y = false ->
      getpixel image x y = getpixel (convert_RGBA rawbg) x y.
Proof.
  intros Hjob Htpl Huser Hbg Hfg Henc.
  exists (composite (convert_RGBA rawbg) (convert_RGBA rawfg)).
  split; [now apply (main_both w inp out d u p rawbg rawfg bytes)|].
  split; [assumption|].
  split; [apply paste_width|]. split; [apply paste_height|].
  intros x y Hbox. unfold composite. apply paste_frame.
  now rewrite resize_width, resize_height.
Qed.

(** C3: for a job with only [template_url] set, the image written to the
    output path is the decoded background converted to RGBA, unmodified;
    where the encoder of the output path is lossless, the file decodes to
    exactly that image. *)
Theorem background_saved_unmodified w inp out d u raw bytes :
  job w inp out d ->
  field_set d "template_url" u ->
  d !! "user_image_path" = None ->
  fetches w u raw ->
  encode out (convert_RGBA raw) = Some bytes ->
  lossless out ->
  let w' := (main w).2 in
  main w = background_only_outcome w inp out u (convert_RGBA raw) bytes /\
  events w w' = [OPEN_TEXT inp; GET u; SAVE out (convert_RGBA raw)] /\
  files w' !! out = Some bytes /\
  exists raw', Image_open bytes = Some raw' /\ convert_RGBA raw' = convert_RGBA raw.
Proof.
  intros Hjob Htpl Huser Hbg Henc Hlossless w'.
  assert (Hrun : main w =
                 background_only_outcome w inp out u (convert_RGBA raw) bytes).
  { apply (main_background_only w inp out d u raw bytes); try assumption.
    now rewrite Huser. }
  subst w'. rewrite Hrun. unfold background_only_outcome.
  split; [reflexivity|]. split; [|split].
  - unfold events, written, with_trace. simpl. now rewrite drop_app_length.
  - unfold written. simpl. apply lookup_insert_eq.
  - apply Hlossless; [apply convert_RGBA_well_formed|assumption].
Qed.

End Composite.

(** ** Loading, failing and saving *)

Section Loading.
Context `{L : Library}.

Lemma load_image_from_url_inv v w r w' :
  load_image_from_url v w = (r, w') ->
  ((forall u, v <> JStr u) /\ r = Raise RequestException /\ w' = w) \/
  (exists u, v = JStr u /\ r = fetch_result w u /\ w' = with_trace w [GET u]).
Proof.
  destruct v as [| | | |u| |];
    try (intros [= <- <-]; left; split; [intros u; discriminate|now split]).
  rewrite load_image_from_url_run. intros [= <- <-]. right. now exists u.
Qed.

Lemma load_image_from_path_or_url_inv v w r w' :
  load_image_from_path_or_url v w = (r, w') ->
  ((forall p, v <> JStr p) /\ r = Raise AttributeError /\ w' = w) \/
  (exists p, v = JStr p /\ String.prefix "http" p = true /\
             r = fetch_result w p /\ w' = with_trace w [GET p]) \/
  (exists p, v = JStr p /\ String.prefix "http" p = false /\
             r = file_result w p /\ w' = with_trace w [OPEN_IMAGE p]).
Proof.
  destruct v as [| | | |p| |];
    try (intros [= <- <-]; left; split; [intros p; discriminate|now split]).
  destruct (String.prefix "http" p) eqn:Hp.
  - rewrite load_remote_run, load_image_from_url_run by assumption.
    intros [= <- <-]. right. left. now exists p.
  - rewrite load_local_run by assumption.
    intros [= <- <-]. right. right. now exists p.
Qed.

Lemma Image_save_inv image out w r w' :
  Image_save image out w = (r, w') ->
  (exists bytes, encode out image = Some bytes /\ r = Ok tt /\
                 w' = written (with_trace w [SAVE out image]) out bytes) \/
  (encode out image = None /\ r = Raise SaveError /\
   w' = left_with (with_trace w [SAVE out image]) out
          (save_leaves out image (files w !! out))).
Proof.
  unfold Image_save, log, write_file, fail_save. rewrite bind_run.
  destruct (encode out image) as [bytes|]; intros [= <- <-].
  - left. now exists bytes.
  - now right.
Qed.

(** A failed load is never a [SystemExit] and never a failed save. *)
Lemma fetch_result_Raise w u e :
  fetch_result w u = Raise e ->
  e = RequestException \/ e = UnidentifiedImageError \/
  exists status_code content,
    http w u = Response status_code content /\
    is_error_status status_code = true /\ e = HTTPError status_code.
Proof.
  unfold fetch_result.
  destruct (http w u) as [status_code content|]; [|intros [= <-]; now left].
  destruct (is_error_status status_code) eqn:Herr.
  - intros [= <-]. right. right. now exists status_code, content.
  - destruct (Image_open content); [discriminate|].
    intros [= <-]. right. now left.
Qed.

Lemma file_result_Raise w p e :
  file_result w p = Raise e ->
  e = UnidentifiedImageError \/ (files w !! p = None /\ e = FileNotFoundError p).
Proof.
  unfold file_result. destruct (files w !! p) as [bytes|].
  - destruct (Image_open bytes); [discriminate|]. intros [= <-]. now left.
  - intros [= <-]. now right.
Qed.

Lemma events_app w w' evs evs' :
  w' = with_trace w evs -> events w (with_trace w' evs') = (evs ++ evs')%list.
Proof. intros ->. now rewrite with_trace_app, events_with_trace. Qed.

(** C4: a locator string given to the foreground resolver is fetched with
    an HTTP GET if and only if it starts with [http], and is opened from
    the local file system otherwise; either way the image returned is the
    decoded image converted to RGBA, and it is returned whenever the
    source answers with bytes that decode: the result of the call is the
    result of the fetch for a string that starts with [http] and the
    result of opening the local file for any other. *)
Theorem foreground_locator_classified (s : string) (w : World) :
  let r := (load_image_from_path_or_url (JStr s) w).1 in
  let w' := (load_image_from_path_or_url (JStr s) w).2 in
  (String.prefix "http" s = true <-> events w w' = [GET s]) /\
  (String.prefix "http" s = false <-> events w w' = [OPEN_IMAGE s]) /\
  (String.prefix "http" s = true ->
     load_image_from_path_or_url (JStr s) w = load_image_from_url (JStr s) w) /\
  (forall im, r = Ok im ->
     exists raw, im = convert_RGBA raw /\
       if String.prefix "http" s then fetches w s raw else stored w s raw) /\
  (forall raw,
     (if String.prefix "http" s then fetches w s raw else stored w s raw) ->
     r = Ok (convert_RGBA raw)) /\
  load_image_from_path_or_url (JStr s) w =
    (if String.prefix "http" s then fetch_result w s else file_result w s,
     with_trace w [if String.prefix "http" s then GET s else OPEN_IMAGE s]).
Proof.
  intros r w'. subst r w'.
  destruct (String.prefix "http" s) eqn:Hs.
  - rewrite load_remote_run, load_image_from_url_run by assumption. simpl.
    rewrite events_with_trace.
    split; [tauto|]. split; [split; discriminate|]. split; [reflexivity|].
    split; [|split; [|reflexivity]].
    + intros im. unfold fetch_result, fetches.
      destruct (http w s) as [status_code content|]; [|discriminate].
      destruct (is_error_status status_code) eqn:Herr; [discriminate|].
      destruct (Image_open content) as [raw|] eqn:Hraw; [|discriminate].
      intros [= <-]. exists raw. split; [reflexivity|].
      now exists status_code, content.
    + intros raw (status_code & content & Hresp & Hok & Hraw).
      unfold fetch_result. now rewrite Hresp, Hok, Hraw.
  - rewrite load_local_run by assumption. simpl. rewrite events_with_trace.
    split; [split; discriminate|]. split; [tauto|]. split; [discriminate|].
    split; [|split; [|reflexivity]].
    + intros im. unfold file_result, stored.
      destruct (files w !! s) as [bytes|]; [|discriminate].
      destruct (Image_open bytes) as [raw|] eqn:Hraw; [|discriminate].
      intros [= <-]. exists raw. split; [reflexivity|]. now exists bytes.
    + intros raw (bytes & Hfile & Hraw).
      unfold file_result. now rewrite Hfile, Hraw.
Qed.

End Loading.

(** ** Failures *)

Section Failures.
Context `{L : Library}.

Lemma job_unique w inp out d inp' out' d' :
  job w inp out d -> job w inp' out' d' -> inp' = inp /\ out' = out /\ d' = d.
Proof.
  intros (prog & bytes & Hargv & Hfile & _ & Hjson)
         (prog' & bytes' & Hargv' & Hfile' & _ & Hjson').
  rewrite Hargv in Hargv'. injection Hargv' as <- <- <-.
  rewrite Hfile in Hfile'. injection Hfile' as <-.
  rewrite Hjson in Hjson'. injection Hjson' as <-. now repeat split.
Qed.

(** Take a run apart: its path, then what each load and the save did. *)
Ltac invert_calls :=
  repeat match goal with
    | H : load_image_from_url _ _ = _ |- _ =>
        apply load_image_from_url_inv in H;
        destruct H as [(? & ? & ?)|(? & ? & ? & ?)]
    | H : load_image_from_path_or_url _ _ = _ |- _ =>
        apply load_image_from_path_or_url_inv in H;
        destruct H as [(? & ? & ?)|[(? & ? & ? & ? & ?)|(? & ? & ? & ? & ?)]]
    | H : Image_save _ _ _ = _ |- _ =>
        apply Image_save_inv in H;
        destruct H as [(? & ? & ? & ?)|(? & ? & ?)]
    end.

Ltac invert_run H := inversion H; clear H; invert_calls; simplify_eq.

Ltac trace_simpl :=
  rewrite ?events_printed, ?events_written, ?events_left_with,
    ?with_trace_app, ?events_with_trace, ?events_refl.

Lemma exit_status_fetch w u e :
  fetch_result w u = Raise e -> exit_status (A := unit) (Raise e) = 1%Z.
Proof.
  intros H. apply fetch_result_Raise in H.
  destruct H as [->|[->|(? & ? & _ & _ & ->)]]; reflexivity.
Qed.

Lemma exit_status_file w p e :
  file_result w p = Raise e -> exit_status (A := unit) (Raise e) = 1%Z.
Proof.
  intros H. apply file_result_Raise in H.
  destruct H as [->|[_ ->]]; reflexivity.
Qed.

(** C6: when a run fails before the save step (the background fetch
    answers with an HTTP error status, [user_image_path] names a local
    file that does not exist, an image does not decode, or any other
    exception than one raised by the save itself), the save was not
    reached, the files are as they were, so no output file was created,
    and the exit status is not zero. *)
Theorem failure_before_save_writes_nothing w e w' :
  main w = (Raise e, w') ->
  e <> SaveError ->
  Forall (fun ev => is_SAVE ev = false) (events w w') /\
  files w' = files w /\
  exit_status (A := unit) (Raise e) <> 0%Z.
Proof.
  intros Hmain Hne. pose proof (main_runs w) as Hrun.
  rewrite Hmain in Hrun. simpl in Hrun.
  invert_run Hrun; trace_simpl;
    (split; [repeat constructor|split; [reflexivity|]]);
    try (simpl; discriminate).
  all: match goal with
       | H : Raise _ = fetch_result _ _ |- _ =>
           symmetry in H; apply exit_status_fetch in H
       | H : Raise _ = file_result _ _ |- _ =>
           symmetry in H; apply exit_status_file in H
       end.
  all: congruence.
Qed.

Lemma fetch_result_with_trace w evs u :
  fetch_result (with_trace w evs) u = fetch_result w u.
Proof. reflexivity. Qed.

Lemma file_result_with_trace w evs p :
  file_result (with_trace w evs) p = file_result w p.
Proof. reflexivity. Qed.

Lemma fetch_result_error w u status_code content :
  http w u = Response status_code content ->
  is_error_status status_code = true ->
  fetch_result w u = Raise (HTTPError status_code).
Proof. intros Hresp Herr. unfold fetch_result. now rewrite Hresp, Herr. Qed.

Ltac split_elem_of :=
  repeat match goal with
    | H : _ ∈ _ :: _ |- _ =>
        apply elem_of_cons in H; destruct H as [H|H]; [simplify_eq|]
    | H : _ ∈ [] |- _ => now apply elem_of_nil in H
    end.

(** C5: a GET answered with an error status (4xx or 5xx, the statuses
    that [raise_for_status] rejects) makes the load raise [HTTPError] after
    that one request, with no second attempt, and a run of [main] that
    made the request ends there with that exception, a non-zero exit
    status and no file written; a status that is not an error makes the
    load return the decoded image converted to RGBA. *)
Theorem error_status_raises_HTTPError w u status_code content :
  http w u = Response status_code content ->
  load_image_from_url (JStr u) w =
    (if is_error_status status_code then Raise (HTTPError status_code)
     else match Image_open content with
          | Some raw => Ok (convert_RGBA raw)
          | None => Raise UnidentifiedImageError
          end,
     with_trace w [GET u]) /\
  (is_error_status status_code = true ->
   GET u ∈ events w (main w).2 ->
   (main w).1 = Raise (HTTPError status_code) /\
   exit_status (main w).1 <> 0%Z /\
   last (events w (main w).2) = Some (GET u) /\
   files (main w).2 = files w).
Proof.
  intros Hresp. split.
  { rewrite load_image_from_url_run. unfold fetch_result. now rewrite Hresp. }
  intros Herr Hin. pose proof (main_runs w) as Hrun.
  pose proof (fetch_result_error w u _ _ Hresp Herr) as Hfail.
  destruct (main w) as [r w']. simpl in *.
  invert_run Hrun; revert Hin; trace_simpl; intros Hin; simpl in Hin;
    split_elem_of;
    rewrite ?fetch_result_with_trace in *; simplify_eq; try congruence.
  all: match goal with
       | H : Raise _ = fetch_result _ _ |- _ => rewrite Hfail in H; simplify_eq
       end.
  all: split; [reflexivity|split; [discriminate|split; reflexivity]].
Qed.

(** The paths of a run that read no descriptor are closed to a job. *)
Ltac use_job Hjob :=
  repeat match goal with
    | H : job _ _ _ _ |- _ =>
        lazymatch H with
        | Hjob => fail
        | _ => destruct (job_unique _ _ _ _ _ _ _ Hjob H) as (-> & -> & ->);
               clear H
        end
    end.

Lemma job_not_usage w inp out d :
  job w inp out d -> ~ (forall prog inp out, argv w <> [prog; inp; out]).
Proof. intros (prog & bytes & Hargv & _) H. exact (H _ _ _ Hargv). Qed.

Lemma job_input w inp out d prog' inp' out' :
  job w inp out d -> argv w = [prog'; inp'; out'] ->
  inp' = inp /\ exists bytes,
    files w !! inp = Some bytes /\ utf8_valid bytes = true /\
    json_load bytes = Some (JDict d).
Proof.
  intros (prog & bytes & Hargv & Hfile & Hutf8 & Hjson) Hargv'.
  rewrite Hargv in Hargv'. injection Hargv' as <- <- <-.
  split; [reflexivity|]. now exists bytes.
Qed.

(** C9: the background locator is always resolved over the network.
    Whatever the string in [template_url] is, also when it does not begin
    with [http], [main] hands it to the HTTP GET right after reading the
    descriptor, and the only local image file a run can open is the one
    that [user_image_path] names. *)
Theorem template_url_always_fetched w inp out d u :
  job w inp out d ->
  field_set d "template_url" u ->
  (forall w0, (load_image_from_url (JStr u) w0).2 = with_trace w0 [GET u]) /\
  exists rest,
    events w (main w).2 = OPEN_TEXT inp :: GET u :: rest /\
    forall p, OPEN_IMAGE p ∈ rest ->
      d !! "user_image_path" = Some (JStr p) /\ String.prefix "http" p = false.
Proof.
  intros Hjob Htpl. split; [intros w0; now rewrite load_image_from_url_run|].
  pose proof (truthy_field_set _ _ _ Htpl) as Htruthy.
  destruct Htpl as [Hd Hu].
  pose proof (main_runs w) as Hrun. destruct (main w) as [r w']. simpl in *.
  inversion Hrun; clear Hrun; use_job Hjob.
  1: now destruct (job_not_usage _ _ _ _ Hjob).
  1-4: destruct (job_input _ _ _ _ _ _ _ Hjob ltac:(eassumption))
         as (-> & bytes' & ? & ? & ?); simplify_eq; try congruence.
  1: congruence.
  all: rewrite Hd in *; simpl in *; invert_calls; simplify_eq; trace_simpl.
  all: try match goal with
           | H : forall s, JStr ?u <> JStr s |- _ => now destruct (H u)
           end.
  all: eexists; split; [reflexivity|]; intros p Hin; simpl in Hin;
    split_elem_of.
  all: split; [|assumption].
  all: destruct (d !! "user_image_path"); simpl in *; congruence.
Qed.

End Failures.

(** ** Absent and empty fields *)

Section Fields.
Context `{L : Library}.

(** C7: when [template_url] is absent from the descriptor, the run prints
    a message containing [Missing template_url] and exits with status 1;
    it has fetched nothing and written nothing. *)
Theorem missing_template_url_exits_1 w inp out d :
  job w inp out d ->
  d !! "template_url" = None ->
  main w = missing_template_outcome w inp /\
  exit_status (main w).1 = 1%Z /\
  (exists msg, stdout (main w).2 = (stdout w ++ [msg])%list /\
               is_substring "Missing template_url" msg = true) /\
  events w (main w).2 = [OPEN_TEXT inp] /\
  files (main w).2 = files w.
Proof.
  intros Hjob Habsent.
  assert (Hrun : main w = missing_template_outcome w inp).
  { apply (main_missing w inp out d Hjob). now rewrite Habsent. }
  rewrite Hrun. unfold missing_template_outcome. simpl.
  split; [reflexivity|]. split; [reflexivity|]. split.
  - exists "Missing template_url in input data". split; reflexivity.
  - split; [|reflexivity]. now rewrite events_printed, events_with_trace.
Qed.


End Fields.

(** ** The small library is lawful and its image format is lossless *)

Module ReferenceFacts.
Import Reference.

Lemma length_rows {A} (g : nat -> nat -> A) (w : nat) (ys : list nat) :
  length (y ← ys; g y <$> seq 0 w) = (length ys * w)%nat.
Proof.
  induction ys as [|y ys IH]; [reflexivity|].
  rewrite bind_cons, length_app, length_fmap, length_seq, IH. simpl. lia.
Qed.

#[export] Instance lawful : Lawful library.
Proof.
  split.
  - intros raw. unfold well_formed. simpl.
    apply length_take_le. rewrite length_app, length_replicate. lia.
  - reflexivity.
  - reflexivity.
  - intros im [w h]. unfold well_formed. simpl.
    rewrite length_rows, length_seq. lia.
Qed.

Lemma read_pixels_bytes (px : list pixel) :
  read_pixels (flat_map pixel_bytes px) = Some px.
Proof.
  induction px as [|[r g b a] px IH]; [reflexivity|].
  simpl. now rewrite IH.
Qed.

Lemma write_image_lossless (out : string) : lossless out.
Proof.
  intros [w h px] bytes Hwf Henc. unfold well_formed in Hwf.
  simpl in *. unfold write_image in Henc. simpl in Henc.
  destruct (Nat.eqb (length px) (w * h)); [|discriminate].
  destruct (Byte.of_nat w) as [bw|] eqn:Hw; [|discriminate].
  destruct (Byte.of_nat h) as [bh|] eqn:Hh; [|discriminate].
  simpl in Henc. injection Henc as <-.
  exists (mkImage w h px). split.
  - unfold read_image. rewrite read_pixels_bytes. simpl.
    now rewrite (Byte.to_of_nat _ Hw), (Byte.to_of_nat _ Hh).
  - unfold to_RGBA. simpl. f_equal. now apply take_app_length'.
Qed.

End ReferenceFacts.

(** ** The statements on the small library *)

Module ReferenceRuns.
Import Reference ReferenceFacts.

Lemma world_job fields d :
  utf8_valid (object_text fields) = true ->
  read_json (object_text fields) = Some (JDict d) ->
  job (world fields) "job.json" "out.img" d.
Proof.
  intros Hutf8 Hd. exists "generate_image.py", (object_text fields).
  split; [reflexivity|]. split; [|now split].
  unfold world, disk. simpl. apply lookup_insert_eq.
Qed.

Lemma field_set_descriptor fields key s :
  descriptor fields !! key = Some (JStr s) -> s <> EmptyString ->
  field_set (descriptor fields) key s.
Proof. now split. Qed.

Lemma red_fetches fields :
  fetches (world fields) "http://templates.example/red.img" red_square.
Proof.
  exists 200%Z, (image_bytes red_square).
  split; [reflexivity|]. split; [reflexivity|]. vm_compute. reflexivity.
Qed.

Lemma dot_foreground fields :
  foreground (world fields) "dot.img" clear_dot.
Proof.
  unfold foreground. simpl. exists (image_bytes clear_dot). split.
  - unfold world, disk. simpl.
    rewrite lookup_insert_ne by discriminate. apply lookup_insert_eq.
  - vm_compute. reflexivity.
Qed.

Lemma image_bytes_encode out im :
  is_Some (write_image EmptyString im) ->
  encode out im = Some (image_bytes im).
Proof. intros [bytes Hb]. unfold image_bytes. simpl. now rewrite Hb. Qed.

Lemma both_fields_job :
  job (world both_fields) "job.json" "out.img" (descriptor both_fields).
Proof. apply world_job; vm_compute; reflexivity. Qed.

Lemma both_fields_template :
  field_set (descriptor both_fields) "template_url"
            "http://templates.example/red.img".
Proof. apply field_set_descriptor; [vm_compute; reflexivity|discriminate]. Qed.

Lemma both_fields_user :
  field_set (descriptor both_fields) "user_image_path" "dot.img".
Proof. apply field_set_descriptor; [vm_compute; reflexivity|discriminate]. Qed.

Lemma composite_encodes out :
  encode out (composite (to_RGBA red_square) (to_RGBA clear_dot)) =
  Some (image_bytes (composite (to_RGBA red_square) (to_RGBA clear_dot))).
Proof. apply image_bytes_encode. vm_compute. eexists. reflexivity. Qed.

(** The paste at work: pixel (41, 41) of the red background becomes the
    transparent pixel of the foreground, pixel (3, 3) stays red. *)
Lemma paste_overwrites_box_witness :
  let image := composite (to_RGBA red_square) (to_RGBA clear_dot) in
  (main (world both_fields)).1 = Ok tt /\
  files (main (world both_fields)).2 !! "out.img" = Some (image_bytes image) /\
  getpixel image 41 41 = Some transparent /\
  getpixel image 3 3 = Some red_pixel.
Proof.
  intros image.
  destruct (paste_overwrites_box (L := library)
              (world both_fields) "job.json" "out.img"
              (descriptor both_fields)
              "http://templates.example/red.img" "dot.img"
              red_square clear_dot (image_bytes image))
    as (Hrun & _ & _ & Hpx).
  - apply both_fields_job.
  - apply both_fields_template.
  - apply both_fields_user.
  - apply red_fetches.
  - apply dot_foreground.
  - apply composite_encodes.
  - rewrite Hrun. split; [reflexivity|]. split.
    + unfold written. simpl. apply lookup_insert_eq.
    + split.
      * etrans; [apply (Hpx 41 41)%nat; simpl; lia|]. vm_compute. reflexivity.
      * etrans; [apply (Hpx 3 3)%nat; simpl; lia|]. vm_compute. reflexivity.
Defined.

(** C1, as stated, fails: counterexample.  The job has both fields set;
    at pixel (40, 40) the background is opaque red and the stretched
    foreground is fully transparent, yet the image that is written has the
    transparent pixel there, not the background's: the paste is not masked
    by the alpha channel of the foreground. *)
Lemma transparent_pixel_overwrites_background :
  let w := world both_fields in
  let bg := to_RGBA red_square in
  let fg := nearest (to_RGBA clear_dot) (250, 250)%nat in
  exists image,
    job w "job.json" "out.img" (descriptor both_fields) /\
    field_set (descriptor both_fields) "template_url"
              "http://templates.example/red.img" /\
    field_set (descriptor both_fields) "user_image_path" "dot.img" /\
    main w =
      (Ok tt,
       written (with_trace w [OPEN_TEXT "job.json";
                              GET "http://templates.example/red.img";
                              OPEN_IMAGE "dot.img";
                              SAVE "out.img" image])
               "out.img" (image_bytes image)) /\
    getpixel bg 40 40 = Some red_pixel /\
    getpixel fg 0 0 = Some transparent /\
    alpha transparent = x00 /\
    getpixel image 40 40 = Some transparent /\
    getpixel image 40 40 <> getpixel bg 40 40 /\
    ~ alpha_masked image bg fg 40 40.
Proof.
  intros w bg fg. exists (composite bg (to_RGBA clear_dot)).
  pose proof both_fields_job as Hjob.
  pose proof both_fields_template as Htpl.
  pose proof both_fields_user as Huser.
  assert (Hout : getpixel (composite bg (to_RGBA clear_dot)) 40 40
                 = Some transparent).
  { vm_compute. reflexivity. }
  assert (Hbg : getpixel bg 40 40 = Some red_pixel).
  { vm_compute. reflexivity. }
  assert (Hfg : getpixel fg 0 0 = Some transparent).
  { vm_compute. reflexivity. }
  refine (conj Hjob (conj Htpl (conj Huser (conj _ (conj Hbg (conj Hfg
            (conj eq_refl (conj Hout (conj _ _))))))))).
  - apply (main_both (L := library) w "job.json" "out.img"
             (descriptor both_fields) "http://templates.example/red.img"
             "dot.img" red_square clear_dot); try assumption.
    + apply red_fetches.
    + apply dot_foreground.
    + apply composite_encodes.
  - rewrite Hout, Hbg. discriminate.
  - intros Hmask.
    destruct (Hmask 40 40 red_pixel transparent)%nat as [Hkeep _];
      [reflexivity|assumption|assumption|].
    rewrite Hout in Hkeep. specialize (Hkeep eq_refl). discriminate.
Qed.

(** The frame at work: pixel (39, 40), just left of the box, stays red. *)
Lemma pixels_outside_box_unchanged_witness :
  exists image,
    (main (world both_fields)).1 = Ok tt /\
    files (main (world both_fields)).2 !! "out.img" = encode "out.img" image /\
    getpixel image 39 40 = Some red_pixel.
Proof.
  destruct (pixels_outside_box_unchanged (L := library)
              (world both_fields) "job.json" "out.img"
              (descriptor both_fields)
              "http://templates.example/red.img" "dot.img"
              red_square clear_dot
              (image_bytes (composite (to_RGBA red_square) (to_RGBA clear_dot))))
    as (image & Hrun & Henc & _ & _ & Hpx).
  - apply both_fields_job.
  - apply both_fields_template.
  - apply both_fields_user.
  - apply red_fetches.
  - apply dot_foreground.
  - apply composite_encodes.
  - exists image. rewrite Hrun, Henc. split; [reflexivity|]. split.
    + unfold written. cbn [files snd]. apply lookup_insert_eq.
    + etrans; [apply (Hpx 39 40)%nat; reflexivity|]. vm_compute. reflexivity.
Defined.

(** The background alone: the file holds the red square, and decodes to it. *)
Lemma background_saved_unmodified_witness :
  files (main (world template_only)).2 !! "out.img"
    = Some (image_bytes (to_RGBA red_square)) /\
  exists raw', read_image (image_bytes (to_RGBA red_square)) = Some raw' /\
               to_RGBA raw' = to_RGBA red_square.
Proof.
  destruct (background_saved_unmodified (L := library)
              (world template_only) "job.json" "out.img"
              (descriptor template_only)
              "http://templates.example/red.img"
              red_square (image_bytes (to_RGBA red_square)))
    as (_ & _ & Hfile & Hdec).
  - apply world_job; vm_compute; reflexivity.
  - apply field_set_descriptor; [vm_compute; reflexivity|discriminate].
  - vm_compute. reflexivity.
  - apply red_fetches.
  - apply image_bytes_encode. vm_compute. eexists. reflexivity.
  - apply write_image_lossless.
  - split; [exact Hfile|exact Hdec].
Defined.

(** A local path is opened, a URL is fetched, and each returns the dot. *)
Lemma foreground_locator_classified_witness :
  load_image_from_path_or_url (JStr "dot.img") (world both_fields)
    = (Ok (to_RGBA clear_dot),
       with_trace (world both_fields) [OPEN_IMAGE "dot.img"]) /\
  load_image_from_path_or_url (JStr "http://templates.example/dot.img")
                              (world both_fields)
    = (Ok (to_RGBA clear_dot),
       with_trace (world both_fields) [GET "http://templates.example/dot.img"]) /\
  (load_image_from_path_or_url (JStr "nothere.img") (world both_fields)).1
    = Raise (FileNotFoundError "nothere.img").
Proof.
  pose proof (foreground_locator_classified (L := library)
                "dot.img" (world both_fields)) as Hlocal.
  pose proof (foreground_locator_classified (L := library)
                "http://templates.example/dot.img" (world both_fields))
    as Hremote.
  pose proof (foreground_locator_classified (L := library)
                "nothere.img" (world both_fields)) as Hmissing.
  cbv zeta in Hlocal, Hremote, Hmissing.
  destruct Hlocal as (_ & _ & _ & _ & _ & Hlocal).
  destruct Hremote as (_ & _ & _ & _ & _ & Hremote).
  destruct Hmissing as (_ & _ & _ & _ & _ & Hmissing).
  split; [|split].
  - rewrite Hlocal. vm_compute. reflexivity.
  - rewrite Hremote. vm_compute. reflexivity.
  - rewrite Hmissing. vm_compute. reflexivity.
Defined.

Lemma run_pair (w : World) r :
  (main w).1 = r -> main w = (r, (main w).2).
Proof. intros <-. apply surjective_pairing. Qed.

(** A 404 on the template: the load raises after one GET and the run ends
    there; a 200 returns the red square. *)
Lemma error_status_raises_HTTPError_witness :
  load_image_from_url (JStr "http://templates.example/gone.img")
                      (world gone_template)
    = (Raise (HTTPError 404),
       with_trace (world gone_template) [GET "http://templates.example/gone.img"]) /\
  (main (world gone_template)).1 = Raise (HTTPError 404) /\
  files (main (world gone_template)).2 = files (world gone_template) /\
  (load_image_from_url (JStr "http://templates.example/red.img")
                       (world gone_template)).1 = Ok (to_RGBA red_square).
Proof.
  destruct (error_status_raises_HTTPError (L := library) (world gone_template)
              "http://templates.example/gone.img" 404 [] eq_refl)
    as [Hload Hmain].
  destruct (error_status_raises_HTTPError (L := library) (world gone_template)
              "http://templates.example/red.img" 200 (image_bytes red_square)
              eq_refl)
    as [Hok _].
  split; [exact Hload|].
  destruct (Hmain eq_refl) as (Hr & _ & _ & Hfiles).
  - replace (events (world gone_template) (main (world gone_template)).2)
      with [OPEN_TEXT "job.json"; GET "http://templates.example/gone.img"]
      by (vm_compute; reflexivity).
    apply elem_of_cons. right. apply elem_of_cons. now left.
  - split; [exact Hr|]. split; [exact Hfiles|].
    rewrite Hok. vm_compute. reflexivity.
Defined.

(** The same 404, and a foreground file that does not exist: nothing is
    saved, the files are as they were, the exit status is 1. *)
Lemma failure_before_save_writes_nothing_witness :
  (files (main (world gone_template)).2 = files (world gone_template) /\
   exit_status (A := unit) (Raise (HTTPError 404)) <> 0%Z) /\
  (files (main (world missing_foreground)).2 = files (world missing_foreground) /\
   (main (world missing_foreground)).2.(files) !! "out.img" = None).
Proof.
  split.
  - destruct (failure_before_save_writes_nothing (L := library)
                (world gone_template) (HTTPError 404)
                (main (world gone_template)).2)
      as (_ & Hfiles & Hexit).
    + apply run_pair. vm_compute. reflexivity.
    + discriminate.
    + now split.
  - destruct (failure_before_save_writes_nothing (L := library)
                (world missing_foreground) (FileNotFoundError "nothere.img")
                (main (world missing_foreground)).2)
      as (_ & Hfiles & _).
    + apply run_pair. vm_compute. reflexivity.
    + discriminate.
    + split; [exact Hfiles|]. rewrite Hfiles. vm_compute. reflexivity.
Defined.

(** A descriptor without [template_url]. *)
Lemma missing_template_url_exits_1_witness :
  exit_status (main (world no_template)).1 = 1%Z /\
  stdout (main (world no_template)).2 = ["Missing template_url in input data"] /\
  events (world no_template) (main (world no_template)).2 = [OPEN_TEXT "job.json"].
Proof.
  destruct (missing_template_url_exits_1 (L := library) (world no_template)
              "job.json" "out.img" (descriptor no_template))
    as (Hrun & Hexit & _ & Hevents & _).
  - apply world_job; vm_compute; reflexivity.
  - vm_compute. reflexivity.
  - split; [exact Hexit|]. split; [now rewrite Hrun|exact Hevents].
Defined.

(** A template locator that does not begin with [http] is still sent to
    the server. *)
Lemma template_url_always_fetched_witness :
  String.prefix "http" "local/red.img" = false /\
  exists rest,
    events (world local_template) (main (world local_template)).2
      = OPEN_TEXT "job.json" :: GET "local/red.img" :: rest.
Proof.
  split; [reflexivity|].
  destruct (template_url_always_fetched (L := library) (world local_template)
              "job.json" "out.img" (descriptor local_template) "local/red.img")
    as (_ & rest & Hevents & _).
  - apply world_job; vm_compute; reflexivity.
  - apply field_set_descriptor; [vm_compute; reflexivity|discriminate].
  - now exists rest.
Defined.


End ReferenceRuns.

(** ** The paths of [main] that end early *)

Section EarlyExits.
Context `{L : Library}.

Lemma truthy_false_iff v : truthy v = false <-> falsy_value v.
Proof.
  unfold falsy_value. split.
  - destruct v as [|b|n|f|s|l|d]; simpl; intros H.
    + now left.
    + destruct b; [discriminate|]. right. now left.
    + apply negb_false_iff, Z.eqb_eq in H. subst. right. right. now left.
    + destruct f; try discriminate. do 3 right. left. now eexists.
    + apply negb_false_iff, String.eqb_eq in H. subst. do 4 right. now left.
    + destruct l; [|discriminate]. do 5 right. now left.
    + apply negb_false_iff, Nat.eqb_eq, map_size_empty_iff in H. subst.
      now do 6 right.
  - intros [->|[->|[->|[[s ->]|[->|[->| ->]]]]]]; reflexivity.
Qed.

Lemma main_usage w :
  length (argv w) <> 3%nat ->
  main w = (Raise (SystemExit 1), printed w usage_message).
Proof.
  intros Hlen. unfold main, sys_argv. rewrite bind_run.
  destruct (argv w) as [|prog [|inp [|out [|extra rest]]]];
    try reflexivity. now destruct Hlen.
Qed.

(** X1: with any number of arguments other than two the run prints the
    usage line and exits with status 1; it opens no file, sends no
    request and leaves the files as they were. *)
Theorem wrong_argument_count_prints_usage w :
  length (argv w) <> 3%nat ->
  main w = (Raise (SystemExit 1), printed w usage_message) /\
  exit_status (main w).1 = 1%Z /\
  stdout (main w).2 = (stdout w ++ [usage_message])%list /\
  events w (main w).2 = [] /\
  files (main w).2 = files w.
Proof.
  intros Hlen. rewrite (main_usage w Hlen). simpl.
  split; [reflexivity|]. split; [reflexivity|]. split; [reflexivity|].
  split; [|reflexivity]. now rewrite events_printed, events_refl.
Qed.

(** The exception of a run whose descriptor is not a JSON object. *)
Lemma main_unreadable w prog inp out :
  argv w = [prog; inp; out] ->
  (forall d, ~ job w inp out d) ->
  main w =
    (Raise match files w !! inp with
           | None => FileNotFoundError inp
           | Some bytes =>
               if negb (utf8_valid bytes) then UnicodeDecodeError
               else match json_load bytes with
                    | None => JSONDecodeError
                    | Some _ => AttributeError
                    end
           end,
     with_trace w [OPEN_TEXT inp]).
Proof.
  intros Hargv Hnojob.
  unfold main, sys_argv, load_json, open_read, read_file, log.
  rewrite !bind_run, Hargv, !bind_run. simpl.
  destruct (files w !! inp) as [bytes|] eqn:Hfile; [|reflexivity].
  destruct (utf8_valid bytes) eqn:Hutf8; [|reflexivity]. simpl.
  destruct (json_load bytes) as [data|] eqn:Hjson; [|reflexivity].
  simpl. rewrite bind_run.
  destruct data; try reflexivity.
  destruct (Hnojob d). now exists prog, bytes.
Qed.

(** X2: when the descriptor cannot be read as a JSON object, the run
    raises before anything is fetched: [FileNotFoundError] when the input
    file does not exist, [UnicodeDecodeError] when its bytes are not
    UTF-8, [JSONDecodeError] when its text is not JSON, [AttributeError]
    when the JSON is not an object.  Nothing is printed and no file is
    written. *)
Theorem unreadable_descriptor_raises w prog inp out :
  argv w = [prog; inp; out] ->
  (forall d, ~ job w inp out d) ->
  main w =
    (Raise match files w !! inp with
           | None => FileNotFoundError inp
           | Some bytes =>
               if negb (utf8_valid bytes) then UnicodeDecodeError
               else match json_load bytes with
                    | None => JSONDecodeError
                    | Some _ => AttributeError
                    end
           end,
     with_trace w [OPEN_TEXT inp]) /\
  exit_status (main w).1 = 1%Z /\
  stdout (main w).2 = stdout w /\
  files (main w).2 = files w.
Proof.
  intros Hargv Hnojob.
  rewrite (main_unreadable w prog inp out Hargv Hnojob). simpl.
  split; [reflexivity|]. split; [|now split].
  destruct (files w !! inp) as [bytes|]; [|reflexivity].
  destruct (utf8_valid bytes); simpl; [|reflexivity].
  now destruct (json_load bytes).
Qed.

End EarlyExits.

(** ** Values that are not usable locators *)

Section Values.
Context `{L : Library}.

Ltac take_calls_apart :=
  repeat match goal with
    | H : load_image_from_url _ _ = _ |- _ =>
        apply load_image_from_url_inv in H;
        destruct H as [(? & ? & ?)|(? & ? & ? & ?)]
    | H : load_image_from_path_or_url _ _ = _ |- _ =>
        apply load_image_from_path_or_url_inv in H;
        destruct H as [(? & ? & ?)|[(? & ? & ? & ? & ?)|(? & ? & ? & ? & ?)]]
    | H : Image_save _ _ _ = _ |- _ =>
        apply Image_save_inv in H;
        destruct H as [(? & ? & ? & ?)|(? & ? & ?)]
    end.

Ltac same_job Hjob :=
  repeat match goal with
    | H : job _ _ _ _ |- _ =>
        lazymatch H with
        | Hjob => fail
        | _ => destruct (job_unique _ _ _ _ _ _ _ Hjob H) as (-> & -> & ->);
               clear H
        end
    end.

Lemma fetch_result_not_exit w u code :
  fetch_result w u <> Raise (SystemExit code).
Proof.
  intros H. apply fetch_result_Raise in H.
  destruct H as [H|[H|(? & ? & _ & _ & H)]]; discriminate.
Qed.

Lemma file_result_not_exit w p code :
  file_result w p <> Raise (SystemExit code).
Proof.
  intros H. apply file_result_Raise in H.
  destruct H as [H|[_ H]]; discriminate.
Qed.

(** Once [template_url] has passed the truth test, the run does not end
    through [sys.exit]. *)
Lemma main_no_exit_after_template w inp out d code :
  job w inp out d ->
  truthy (default JNone (d !! "template_url")) = true ->
  (main w).1 <> Raise (SystemExit code).
Proof.
  intros Hjob Htruthy Hexit. pose proof (main_runs w) as Hrun.
  destruct (main w) as [r w']. simpl in *. subst r.
  inversion Hrun; clear Hrun; same_job Hjob; subst.
  - now destruct (job_not_usage _ _ _ _ Hjob).
  - congruence.
  - take_calls_apart; simplify_eq.
    match goal with
    | H : Raise _ = fetch_result _ _ |- _ =>
        symmetry in H; now apply fetch_result_not_exit in H
    end.
  - take_calls_apart; simplify_eq.
  - take_calls_apart; simplify_eq;
    match goal with
    | H : Raise (SystemExit _) = fetch_result _ _ |- _ =>
        symmetry in H; now apply fetch_result_not_exit in H
    | H : Raise (SystemExit _) = file_result _ _ |- _ =>
        symmetry in H; now apply file_result_not_exit in H
    end.
  - take_calls_apart; simplify_eq.
Qed.

(** X3: the run ends with the missing-field message and exit status 1
    exactly when [template_url] is absent or holds a value that Python
    takes for false: [null], [false], [0], [0.0], the empty string, an
    empty list or an empty object. *)
Theorem missing_template_iff_falsy w inp out d :
  job w inp out d ->
  main w = missing_template_outcome w inp <->
  d !! "template_url" = None \/
  exists v, d !! "template_url" = Some v /\ falsy_value v.
Proof.
  intros Hjob. split.
  - intros Hmain.
    destruct (truthy (default JNone (d !! "template_url"))) eqn:Htruthy.
    + destruct (main_no_exit_after_template w inp out d 1 Hjob Htruthy).
      now rewrite Hmain.
    + destruct (d !! "template_url") as [v|]; [|now left].
      right. exists v. split; [reflexivity|]. now apply truthy_false_iff.
  - intros Hfalsy. apply (main_missing w inp out d Hjob).
    destruct Hfalsy as [->|(v & -> & Hv)]; [reflexivity|].
    now apply truthy_false_iff.
Qed.

(** X4: a [user_image_path] that holds a value Python takes for false
    ([null], [false], [0], [0.0], an empty string, list or object) is
    ignored like an absent one: no foreground is resolved and the
    background alone is saved. *)
Theorem falsy_user_image_path_is_ignored w inp out d v u raw bytes :
  job w inp out d ->
  d !! "user_image_path" = Some v ->
  falsy_value v ->
  field_set d "template_url" u ->
  fetches w u raw ->
  encode out (convert_RGBA raw) = Some bytes ->
  main w = background_only_outcome w inp out u (convert_RGBA raw) bytes /\
  events w (main w).2 = [OPEN_TEXT inp; GET u; SAVE out (convert_RGBA raw)].
Proof.
  intros Hjob Hv Hfalsy Htpl Hbg Henc.
  assert (Hrun : main w =
            background_only_outcome w inp out u (convert_RGBA raw) bytes).
  { apply (main_background_only w inp out d u raw bytes); try assumption.
    rewrite Hv. now apply truthy_false_iff. }
  split; [exact Hrun|]. rewrite Hrun. unfold background_only_outcome. simpl.
  now rewrite events_written, events_with_trace.
Qed.

(** X5: a [template_url] that passes the truth test but is not a string
    (a number, [true], a list or an object with elements) is refused by
    [requests.get] before any request is sent: the run raises, prints
    nothing and writes nothing. *)
Theorem template_url_not_a_string_raises w inp out d v :
  job w inp out d ->
  d !! "template_url" = Some v ->
  truthy v = true ->
  (forall s, v <> JStr s) ->
  main w = (Raise RequestException, with_trace w [OPEN_TEXT inp]) /\
  exit_status (main w).1 = 1%Z /\
  files (main w).2 = files w.
Proof.
  intros Hjob Hv Htruthy Hns.
  assert (Hrun : main w = (Raise RequestException, with_trace w [OPEN_TEXT inp])).
  { rewrite (main_job _ _ _ _ Hjob). unfold dict_get. rewrite bind_run. simpl.
    rewrite Hv. simpl. rewrite Htruthy. simpl. rewrite bind_run.
    destruct v; try reflexivity. now destruct (Hns s). }
  rewrite Hrun. now repeat split.
Qed.

(** X6: a [user_image_path] that passes the truth test but is not a
    string has no [startswith]: the run raises [AttributeError] after the
    background has been fetched, and saves nothing. *)
Theorem user_image_path_not_a_string_raises w inp out d v u raw :
  job w inp out d ->
  field_set d "template_url" u ->
  fetches w u raw ->
  d !! "user_image_path" = Some v ->
  truthy v = true ->
  (forall s, v <> JStr s) ->
  main w = (Raise AttributeError, with_trace w [OPEN_TEXT inp; GET u]) /\
  exit_status (main w).1 = 1%Z /\
  files (main w).2 = files w.
Proof.
  intros Hjob Htpl Hbg Hv Htruthy Hns.
  assert (Hrun : main w =
            (Raise AttributeError, with_trace w [OPEN_TEXT inp; GET u])).
  { rewrite (main_job _ _ _ _ Hjob). unfold dict_get. rewrite bind_run. simpl.
    rewrite (truthy_field_set _ _ _ Htpl). destruct Htpl as [-> _]. simpl.
    rewrite bind_run.
    rewrite (fetches_run (with_trace w [OPEN_TEXT inp]) u raw Hbg).
    rewrite bind_run. simpl. rewrite Hv. simpl. rewrite Htruthy.
    rewrite !bind_run, with_trace_app.
    destruct v; try reflexivity. now destruct (Hns s). }
  rewrite Hrun. now repeat split.
Qed.

End Values.

(** ** Loads that fail, and loads that are repeated *)

Section FailedLoads.
Context `{L : Library}.

Lemma fetch_result_Ok w u im :
  fetch_result w u = Ok im -> exists raw, fetches w u raw /\ im = convert_RGBA raw.
Proof.
  unfold fetch_result, fetches.
  destruct (http w u) as [status_code content|]; [|discriminate].
  destruct (is_error_status status_code) eqn:Herr; [discriminate|].
  destruct (Image_open content) as [raw|] eqn:Hraw; [|discriminate].
  intros [= <-]. exists raw. split; [|reflexivity].
  now exists status_code, content.
Qed.

Lemma file_result_Ok w p im :
  file_result w p = Ok im -> exists raw, stored w p raw /\ im = convert_RGBA raw.
Proof.
  unfold file_result, stored.
  destruct (files w !! p) as [bytes|]; [|discriminate].
  destruct (Image_open bytes) as [raw|] eqn:Hraw; [|discriminate].
  intros [= <-]. exists raw. split; [|reflexivity]. now exists bytes.
Qed.

Lemma foreground_result_Ok w p im :
  foreground_result w p = Ok im ->
  exists raw, foreground w p raw /\ im = convert_RGBA raw.
Proof.
  unfold foreground_result, foreground.
  destruct (String.prefix "http" p);
    [apply fetch_result_Ok|apply file_result_Ok].
Qed.

Lemma foreground_result_run w p :
  load_image_from_path_or_url (JStr p) w =
  (foreground_result w p, with_trace w [foreground_event p]).
Proof.
  unfold foreground_result, foreground_event.
  destruct (String.prefix "http" p) eqn:Hp.
  - now rewrite load_remote_run, load_image_from_url_run.
  - now rewrite load_local_run.
Qed.

Lemma exit_status_foreground w p e :
  foreground_result w p = Raise e -> exit_status (A := unit) (Raise e) = 1%Z.
Proof.
  unfold foreground_result. destruct (String.prefix "http" p); intros H.
  - apply fetch_result_Raise in H.
    destruct H as [->|[->|(? & ? & _ & _ & ->)]]; reflexivity.
  - apply file_result_Raise in H. destruct H as [->|[_ ->]]; reflexivity.
Qed.

(** X7: when the background cannot be obtained (no answer, an error
    status, or bytes that do not decode) the run ends with that exception
    right after the one GET: [user_image_path] is never looked at, the
    foreground is neither fetched nor opened, and nothing is written. *)
Theorem background_failure_ends_the_run w inp out d u :
  job w inp out d ->
  field_set d "template_url" u ->
  (forall raw, ~ fetches w u raw) ->
  exists e,
    fetch_result w u = Raise e /\
    main w = (Raise e, with_trace w [OPEN_TEXT inp; GET u]) /\
    exit_status (main w).1 = 1%Z /\
    files (main w).2 = files w.
Proof.
  intros Hjob Htpl Hnone.
  destruct (fetch_result w u) as [im|e] eqn:Hfetch.
  { destruct (fetch_result_Ok _ _ _ Hfetch) as (raw & Hraw & _).
    now destruct (Hnone raw). }
  exists e. split; [reflexivity|].
  assert (Hrun : main w = (Raise e, with_trace w [OPEN_TEXT inp; GET u])).
  { rewrite (main_job _ _ _ _ Hjob). unfold dict_get. rewrite bind_run. simpl.
    rewrite (truthy_field_set _ _ _ Htpl). destruct Htpl as [-> _]. simpl.
    rewrite bind_run, load_image_from_url_run.
    change (fetch_result (with_trace w [OPEN_TEXT inp]) u)
      with (fetch_result w u).
    now rewrite Hfetch, with_trace_app. }
  rewrite Hrun. simpl. split; [reflexivity|]. split; [|reflexivity].
  apply fetch_result_Raise in Hfetch.
  destruct Hfetch as [->|[->|(? & ? & _ & _ & ->)]]; reflexivity.
Qed.

(** X8: when the background is there but the foreground cannot be
    resolved, the run ends with the exception of the foreground load
    after both calls and saves nothing; for a local path that does not
    exist the exception is [FileNotFoundError] on that path. *)
Theorem foreground_failure_ends_the_run w inp out d u p rawbg :
  job w inp out d ->
  field_set d "template_url" u ->
  fetches w u rawbg ->
  field_set d "user_image_path" p ->
  (forall raw, ~ foreground w p raw) ->
  exists e,
    foreground_result w p = Raise e /\
    main w = (Raise e, with_trace w [OPEN_TEXT inp; GET u; foreground_event p]) /\
    (String.prefix "http" p = false -> files w !! p = None ->
     e = FileNotFoundError p) /\
    exit_status (main w).1 = 1%Z /\
    files (main w).2 = files w.
Proof.
  intros Hjob Htpl Hbg Huser Hnone.
  destruct (foreground_result w p) as [im|e] eqn:Hfg.
  { destruct (foreground_result_Ok _ _ _ Hfg) as (raw & Hraw & _).
    now destruct (Hnone raw). }
  exists e. split; [reflexivity|].
  assert (Hrun : main w =
            (Raise e, with_trace w [OPEN_TEXT inp; GET u; foreground_event p])).
  { rewrite (main_job _ _ _ _ Hjob). unfold dict_get. rewrite bind_run. simpl.
    rewrite (truthy_field_set _ _ _ Htpl). destruct Htpl as [-> _]. simpl.
    rewrite bind_run.
    rewrite (fetches_run (with_trace w [OPEN_TEXT inp]) u rawbg Hbg).
    rewrite bind_run. simpl.
    rewrite (truthy_field_set _ _ _ Huser). destruct Huser as [-> _]. simpl.
    rewrite !bind_run, foreground_result_run.
    change (foreground_result
              (with_trace (with_trace w [OPEN_TEXT inp]) [GET u]) p)
      with (foreground_result w p).
    now rewrite Hfg, !with_trace_app. }
  rewrite Hrun. simpl. split; [reflexivity|]. split; [|split; [|reflexivity]].
  - intros Hp Hfile. unfold foreground_result, file_result in Hfg.
    rewrite Hp, Hfile in Hfg. congruence.
  - now apply (exit_status_foreground w p).
Qed.

(** X9: nothing is cached between the two loads: when [user_image_path]
    holds the same URL as [template_url], the server is asked twice and
    the image is pasted onto itself. *)
Theorem same_url_is_fetched_twice w inp out d u raw bytes :
  job w inp out d ->
  field_set d "template_url" u ->
  field_set d "user_image_path" u ->
  String.prefix "http" u = true ->
  fetches w u raw ->
  encode out (composite (convert_RGBA raw) (convert_RGBA raw)) = Some bytes ->
  (main w).1 = Ok tt /\
  events w (main w).2 =
    [OPEN_TEXT inp; GET u; GET u;
     SAVE out (composite (convert_RGBA raw) (convert_RGBA raw))].
Proof.
  intros Hjob Htpl Huser Hu Hbg Henc.
  assert (Hfg : foreground w u raw) by (unfold foreground; now rewrite Hu).
  rewrite (main_both w inp out d u u raw raw bytes Hjob Htpl Huser Hbg Hfg Henc).
  simpl. split; [reflexivity|].
  rewrite events_written, events_with_trace. unfold foreground_event.
  now rewrite Hu.
Qed.

End FailedLoads.

(** ** What every run does and does not do *)

Section Outcomes.
Context `{L : Library}.

Ltac take_calls_apart :=
  repeat match goal with
    | H : load_image_from_url _ _ = _ |- _ =>
        apply load_image_from_url_inv in H;
        destruct H as [(? & ? & ?)|(? & ? & ? & ?)]
    | H : load_image_from_path_or_url _ _ = _ |- _ =>
        apply load_image_from_path_or_url_inv in H;
        destruct H as [(? & ? & ?)|[(? & ? & ? & ? & ?)|(? & ? & ? & ? & ?)]]
    | H : Image_save _ _ _ = _ |- _ =>
        apply Image_save_inv in H;
        destruct H as [(? & ? & ? & ?)|(? & ? & ?)]
    end.

Ltac take_run_apart w :=
  let Hrun := fresh "Hrun" in
  pose proof (main_runs w) as Hrun;
  destruct (main w) as [? ?]; simpl in *;
  inversion Hrun; clear Hrun; take_calls_apart; simplify_eq.

Ltac tidy_trace :=
  rewrite ?events_printed, ?events_written, ?events_left_with,
    ?with_trace_app, ?events_with_trace, ?events_refl.

Lemma job_output w inp out d :
  job w inp out d -> argv w !! 2%nat = Some out.
Proof. intros (prog & bytes & -> & _). reflexivity. Qed.

(** X10: a run changes, creates or removes no file other than the one
    named by its second argument, and that one only in the save, which is
    then its last call: a run that ends before the save leaves every
    file as it was. *)
Theorem only_the_output_path_is_written w path :
  files (main w).2 !! path <> files w !! path ->
  argv w !! 2%nat = Some path /\
  exists image, last (events w (main w).2) = Some (SAVE path image).
Proof.
  take_run_apart w; tidy_trace; unfold written, left_with, with_trace, printed;
    simpl; intros Hne; try (now destruct Hne);
    match goal with
    | Hjob : job _ _ ?o _ |- _ =>
        pose proof (job_output _ _ _ _ Hjob) as Hout;
        destruct (decide (o = path)) as [Hsame|Hother];
        [rewrite Hsame in *; split; [exact Hout|eexists; reflexivity]
        |destruct Hne;
         repeat match goal with
                | |- context [match ?c with Some _ => _ | None => _ end] =>
                    destruct c
                end;
         rewrite ?lookup_insert_ne, ?lookup_delete_ne by assumption;
         reflexivity]
    end.
Qed.

(** X11: the exit status is 0 or 1.  A line is printed only by a run that
    ends through [sys.exit(1)], which prints exactly one, the usage line
    or the missing-field line, and has sent no request; every other run
    prints nothing. *)
Theorem prints_only_when_exiting w :
  (exit_status (main w).1 = 0%Z \/ exit_status (main w).1 = 1%Z) /\
  ((stdout (main w).2 = stdout w /\
    forall code, (main w).1 <> Raise (SystemExit code)) \/
   (exists msg,
      (main w).1 = Raise (SystemExit 1) /\
      stdout (main w).2 = (stdout w ++ [msg])%list /\
      (msg = usage_message \/ msg = "Missing template_url in input data") /\
      forall u, GET u ∉ events w (main w).2)).
Proof.
  take_run_apart w; tidy_trace.
  all: try (split; [now right|]; right; eexists;
            split; [reflexivity|]; split; [reflexivity|];
            split; [(now left) || (now right)|];
            intros u Hin; simpl in Hin;
            repeat (apply elem_of_cons in Hin; destruct Hin as [Hin|Hin];
                    [discriminate|]);
            now apply elem_of_nil in Hin).
  all: try (split; [(now left) || (now right)|]; left;
            split; [reflexivity|]; intros code; discriminate).
  all: match goal with
       | H : Raise _ = fetch_result _ _ |- _ =>
           symmetry in H; pose proof (exit_status_fetch _ _ _ H) as Hexit;
           split; [now right|]; left; split; [reflexivity|];
           intros code [= ->]; exact (fetch_result_not_exit _ _ _ H)
       | H : Raise _ = file_result _ _ |- _ =>
           symmetry in H; pose proof (exit_status_file _ _ _ H) as Hexit;
           split; [now right|]; left; split; [reflexivity|];
           intros code [= ->]; exact (file_result_not_exit _ _ _ H)
       end.
Qed.

Lemma field_set_of_truthy d key u :
  default JNone (d !! key) = JStr u ->
  truthy (default JNone (d !! key)) = true ->
  field_set d key u.
Proof.
  intros Hv Htruthy. rewrite Hv in Htruthy. split.
  - destruct (d !! key); simpl in *; congruence.
  - intros ->. discriminate.
Qed.

(** X12: a run that ends without an exception had a readable descriptor
    whose [template_url] is a non-empty string that was fetched and
    decoded; it printed nothing, its last call is the save to the output
    path, the output file holds the encoding of the saved image, and that
    image has exactly the size of the background, whatever the
    foreground was. *)
Theorem success_saves_an_image_of_the_template_size w w' :
  main w = (Ok tt, w') ->
  exists inp out d u rawbg image bytes,
    job w inp out d /\
    field_set d "template_url" u /\
    fetches w u rawbg /\
    last (events w w') = Some (SAVE out image) /\
    encode out image = Some bytes /\
    files w' = <[out := bytes]> (files w) /\
    stdout w' = stdout w /\
    width image = width (convert_RGBA rawbg) /\
    height image = height (convert_RGBA rawbg).
Proof.
  intros Hmain. pose proof (main_runs w) as Hrun. rewrite Hmain in Hrun.
  simpl in Hrun. inversion Hrun; clear Hrun; take_calls_apart; simplify_eq.
  all: match goal with
       | H : Ok _ = fetch_result (with_trace _ [OPEN_TEXT _]) _ |- _ =>
           symmetry in H; apply fetch_result_Ok in H;
           destruct H as (rawbg & Hbg & ->)
       end.
  all: match goal with
       | Hv : default JNone (_ !! "template_url") = JStr _,
         Ht : truthy (default JNone (_ !! "template_url")) = true |- _ =>
           pose proof (field_set_of_truthy _ _ _ Hv Ht) as Htpl
       end.
  all: tidy_trace; do 7 eexists;
    (split; [eassumption|]); (split; [exact Htpl|]); (split; [exact Hbg|]);
    (split; [reflexivity|]); (split; [eassumption|]);
    (split; [reflexivity|]); (split; [reflexivity|]).
  all: try (split; reflexivity).
  all: split; [apply paste_width|apply paste_height].
Qed.

(** X16: the calls of a run are made in one fixed order and never
    repeated: the descriptor is opened, then the background is requested,
    then the foreground is requested or opened, then the image is saved.
    A run stops somewhere along this sequence, or skips the foreground;
    it makes at most four calls and the save is always the last. *)
Theorem calls_are_made_in_order w :
  exists inp u ev out image,
    is_load ev = true /\
    (events w (main w).2 `prefix_of` [OPEN_TEXT inp; GET u; ev; SAVE out image] \/
     events w (main w).2 = [OPEN_TEXT inp; GET u; SAVE out image]).
Proof.
  take_run_apart w; tidy_trace; simpl.
  all: try (exists EmptyString, EmptyString, (GET EmptyString), EmptyString,
              (mkImage 0 0 []);
            split; [reflexivity|]; left; eexists; simpl; reflexivity).
  all: try (eexists _, EmptyString, (GET EmptyString), EmptyString,
              (mkImage 0 0 []);
            split; [reflexivity|]; left; eexists; simpl; reflexivity).
  all: try (eexists _, _, (GET EmptyString), EmptyString, (mkImage 0 0 []);
            split; [reflexivity|]; left; eexists; simpl; reflexivity).
  all: try (eexists _, _, (GET EmptyString), _, _;
            split; [reflexivity|]; right; reflexivity).
  all: try (eexists _, _, (GET _), EmptyString, (mkImage 0 0 []);
            split; [reflexivity|]; left; eexists; simpl; reflexivity).
  all: try (eexists _, _, (OPEN_IMAGE _), EmptyString, (mkImage 0 0 []);
            split; [reflexivity|]; left; eexists; simpl; reflexivity).
  all: try (eexists _, _, (GET _), _, _;
            split; [reflexivity|]; left; exists []; reflexivity).
  all: try (eexists _, _, (OPEN_IMAGE _), _, _;
            split; [reflexivity|]; left; exists []; reflexivity).
Qed.

End Outcomes.

(** ** Clipping, the scheme test, and running twice *)

Section Edges.
Context `{L : Library}.

(** A box that starts beyond the right or bottom edge changes nothing. *)
Lemma paste_beyond_the_image im src (x0 y0 : nat) :
  well_formed im ->
  (width im <= x0)%nat \/ (height im <= y0)%nat ->
  paste im src (x0, y0) = im.
Proof.
  intros Hwf Hsmall. destruct im as [w h px]. unfold well_formed in Hwf.
  unfold paste. simpl in *. f_equal.
  apply list_eq. intros i. rewrite list_lookup_imap.
  destruct (px !! i) as [p|] eqn:Hp; [|reflexivity]. simpl. f_equal.
  apply lookup_lt_Some in Hp. rewrite Hwf in Hp.
  assert (Hw : (0 < w)%nat) by (destruct w; simpl in *; lia).
  assert (Hbox : in_box x0 y0 (width src) (height src) (i mod w) (i / w)
                 = false).
  { unfold in_box. destruct Hsmall as [Hx|Hy].
    - assert (i mod w < w)%nat by (apply Nat.mod_upper_bound; lia).
      replace (x0 <=? i mod w)%nat with false; [reflexivity|].
      symmetry. apply Nat.leb_gt. lia.
    - assert (i / w < h)%nat by (apply Nat.Div0.div_lt_upper_bound; lia).
      replace (y0 <=? i / w)%nat with false;
        [now rewrite andb_false_r|].
      symmetry. apply Nat.leb_gt. lia. }
  now rewrite Hbox.
Qed.

(** X13: a background narrower or lower than 41 pixels lies outside the
    paste box altogether: the paste is clipped to nothing without an
    error, the foreground is still fetched, and the background is saved
    as it was. *)
Theorem small_background_is_saved_unchanged {HL : Lawful L}
    w inp out d u p rawbg rawfg bytes :
  job w inp out d ->
  field_set d "template_url" u ->
  field_set d "user_image_path" p ->
  fetches w u rawbg ->
  foreground w p rawfg ->
  (width (convert_RGBA rawbg) <= 40)%nat \/
  (height (convert_RGBA rawbg) <= 40)%nat ->
  encode out (convert_RGBA rawbg) = Some bytes ->
  composite (convert_RGBA rawbg) (convert_RGBA rawfg) = convert_RGBA rawbg /\
  main w =
    (Ok tt,
     written (with_trace w [OPEN_TEXT inp; GET u; foreground_event p;
                            SAVE out (convert_RGBA rawbg)]) out bytes).
Proof.
  intros Hjob Htpl Huser Hbg Hfg Hsmall Henc.
  assert (Hsame : composite (convert_RGBA rawbg) (convert_RGBA rawfg)
                  = convert_RGBA rawbg).
  { unfold composite. apply paste_beyond_the_image;
      [apply convert_RGBA_well_formed|assumption]. }
  split; [exact Hsame|].
  rewrite <- Hsame.
  apply (main_both w inp out d u p rawbg rawfg bytes); try assumption.
  now rewrite Hsame.
Qed.

(** X14: the scheme test is the literal prefix [http] and nothing more:
    an [https] URL is fetched, a URL written with an upper-case scheme is
    taken for a local path and opened from the file system, and a local
    path that merely begins with [http] is sent to the server, the file
    of that name never being opened. *)
Theorem scheme_test_is_a_literal_prefix (rest : string) (w : World) :
  load_image_from_path_or_url (JStr (String.append "https://" rest)) w
    = (fetch_result w (String.append "https://" rest),
       with_trace w [GET (String.append "https://" rest)]) /\
  load_image_from_path_or_url (JStr (String.append "HTTP://" rest)) w
    = (file_result w (String.append "HTTP://" rest),
       with_trace w [OPEN_IMAGE (String.append "HTTP://" rest)]) /\
  load_image_from_path_or_url (JStr (String.append "http" rest)) w
    = (fetch_result w (String.append "http" rest),
       with_trace w [GET (String.append "http" rest)]).
Proof.
  split; [|split].
  - rewrite load_remote_run by reflexivity. apply load_image_from_url_run.
  - now rewrite load_local_run by reflexivity.
  - rewrite load_remote_run; [apply load_image_from_url_run|].
    simpl. now destruct rest.
Qed.


End Edges.

(** ** The further statements on the small library *)

Module VariantRuns.
Import Reference ReferenceFacts ReferenceRuns Variants.

Lemma text_world_job data text d :
  utf8_valid (list_byte_of_string text) = true ->
  data = JDict d ->
  job (L := reader_library data) (text_world text) "job.json" "out.img" d.
Proof.
  intros Hutf8 ->. exists "generate_image.py", (list_byte_of_string text).
  split; [reflexivity|]. split; [|now split].
  unfold text_world. simpl. apply lookup_singleton_eq.
Qed.

Lemma text_world_fetches data text :
  fetches (L := reader_library data) (text_world text)
          "http://templates.example/red.img" red_square.
Proof.
  exists 200%Z, (image_bytes red_square).
  split; [reflexivity|]. split; [reflexivity|]. vm_compute. reflexivity.
Qed.

(** One argument instead of two. *)
Lemma wrong_argument_count_prints_usage_witness :
  exit_status (main (bare_world ["generate_image.py"; "job.json"])).1 = 1%Z /\
  stdout (main (bare_world ["generate_image.py"; "job.json"])).2
    = [usage_message].
Proof.
  destruct (wrong_argument_count_prints_usage (L := library)
              (bare_world ["generate_image.py"; "job.json"]))
    as (_ & Hexit & Hout & _).
  - simpl. lia.
  - split; [exact Hexit|exact Hout].
Defined.

(** No descriptor file, a descriptor that is not UTF-8, and one that is
    not JSON. *)
Lemma unreadable_descriptor_raises_witness :
  (main (bare_world ["generate_image.py"; "job.json"; "out.img"])).1
    = Raise (FileNotFoundError "job.json") /\
  (main (bytes_world [xff])).1 = Raise UnicodeDecodeError /\
  (main (text_world "not json")).1 = Raise JSONDecodeError.
Proof.
  split; [|split].
  - destruct (unreadable_descriptor_raises (L := library)
                (bare_world ["generate_image.py"; "job.json"; "out.img"])
                "generate_image.py" "job.json" "out.img")
      as (Hrun & _).
    + reflexivity.
    + intros d (prog & bytes & _ & Hfile & _). vm_compute in Hfile.
      discriminate.
    + rewrite Hrun. vm_compute. reflexivity.
  - destruct (unreadable_descriptor_raises (L := library)
                (bytes_world [xff])
                "generate_image.py" "job.json" "out.img")
      as (Hrun & _).
    + reflexivity.
    + intros d (prog & bytes & _ & Hfile & Hutf8 & _).
      unfold bytes_world in Hfile. simpl in Hfile.
      rewrite lookup_singleton_eq in Hfile. injection Hfile as <-.
      vm_compute in Hutf8. discriminate.
    + rewrite Hrun. vm_compute. reflexivity.
  - destruct (unreadable_descriptor_raises (L := library)
                (text_world "not json")
                "generate_image.py" "job.json" "out.img")
      as (Hrun & _).
    + reflexivity.
    + intros d (prog & bytes & _ & Hfile & _ & Hjson).
      unfold text_world in Hfile. simpl in Hfile.
      rewrite lookup_singleton_eq in Hfile. injection Hfile as <-.
      vm_compute in Hjson. discriminate.
    + rewrite Hrun. vm_compute. reflexivity.
Defined.

(** [template_url] is the number 0. *)
Lemma missing_template_iff_falsy_witness :
  main (L := reader_library (JDict zero_template)) (text_world "{}")
    = missing_template_outcome (text_world "{}") "job.json".
Proof.
  apply (missing_template_iff_falsy (L := reader_library (JDict zero_template))
           (text_world "{}") "job.json" "out.img" zero_template).
  - apply text_world_job; reflexivity.
  - right. exists (JInt 0). split; [vm_compute; reflexivity|].
    right. right. now left.
Defined.

(** [user_image_path] is [null]. *)
Lemma falsy_user_image_path_is_ignored_witness :
  events (text_world "{}")
         (main (L := reader_library (JDict null_user)) (text_world "{}")).2
    = [OPEN_TEXT "job.json"; GET "http://templates.example/red.img";
       SAVE "out.img" (to_RGBA red_square)].
Proof.
  apply (falsy_user_image_path_is_ignored
           (L := reader_library (JDict null_user))
           (text_world "{}") "job.json" "out.img" null_user JNone
           "http://templates.example/red.img" red_square
           (image_bytes (to_RGBA red_square))).
  - apply text_world_job; reflexivity.
  - vm_compute. reflexivity.
  - now left.
  - split; [vm_compute; reflexivity|discriminate].
  - apply text_world_fetches.
  - apply image_bytes_encode. vm_compute. eexists. reflexivity.
Defined.

(** [template_url] is the number 5. *)
Lemma template_url_not_a_string_raises_witness :
  main (L := reader_library (JDict number_template)) (text_world "{}")
    = (Raise RequestException, with_trace (text_world "{}") [OPEN_TEXT "job.json"]).
Proof.
  apply (template_url_not_a_string_raises
           (L := reader_library (JDict number_template))
           (text_world "{}") "job.json" "out.img" number_template (JInt 5)).
  - apply text_world_job; reflexivity.
  - vm_compute. reflexivity.
  - reflexivity.
  - intros s. discriminate.
Defined.

(** [user_image_path] is a list. *)
Lemma user_image_path_not_a_string_raises_witness :
  main (L := reader_library (JDict list_user)) (text_world "{}")
    = (Raise AttributeError,
       with_trace (text_world "{}")
         [OPEN_TEXT "job.json"; GET "http://templates.example/red.img"]).
Proof.
  apply (user_image_path_not_a_string_raises
           (L := reader_library (JDict list_user))
           (text_world "{}") "job.json" "out.img" list_user
           (JList [JStr "dot.img"])
           "http://templates.example/red.img" red_square).
  - apply text_world_job; reflexivity.
  - split; [vm_compute; reflexivity|discriminate].
  - apply text_world_fetches.
  - vm_compute. reflexivity.
  - reflexivity.
  - intros s. discriminate.
Defined.

(** The template answers 404 while [user_image_path] is not even read. *)
Lemma background_failure_ends_the_run_witness :
  main (world gone_template)
    = (Raise (HTTPError 404),
       with_trace (world gone_template)
         [OPEN_TEXT "job.json"; GET "http://templates.example/gone.img"]).
Proof.
  destruct (background_failure_ends_the_run (L := library)
              (world gone_template) "job.json" "out.img"
              (descriptor gone_template) "http://templates.example/gone.img")
    as (e & He & Hrun & _).
  - apply world_job; vm_compute; reflexivity.
  - apply field_set_descriptor; [vm_compute; reflexivity|discriminate].
  - intros raw (status_code & content & Hresp & Hok & _).
    vm_compute in Hresp. injection Hresp as <- <-. discriminate.
  - vm_compute in He. injection He as <-. exact Hrun.
Defined.

(** The foreground file does not exist. *)
Lemma foreground_failure_ends_the_run_witness :
  (main (world missing_foreground)).1 = Raise (FileNotFoundError "nothere.img").
Proof.
  destruct (foreground_failure_ends_the_run (L := library)
              (world missing_foreground) "job.json" "out.img"
              (descriptor missing_foreground)
              "http://templates.example/red.img" "nothere.img" red_square)
    as (e & _ & Hrun & Hmissing & _).
  - apply world_job; vm_compute; reflexivity.
  - apply field_set_descriptor; [vm_compute; reflexivity|discriminate].
  - apply red_fetches.
  - apply field_set_descriptor; [vm_compute; reflexivity|discriminate].
  - intros raw (bytes & Hfile & _). vm_compute in Hfile. discriminate.
  - rewrite Hrun. simpl. f_equal. apply Hmissing; [reflexivity|].
    vm_compute. reflexivity.
Defined.

(** Both fields hold the URL of the dot. *)
Lemma same_url_is_fetched_twice_witness :
  events (world same_url) (main (world same_url)).2
    = [OPEN_TEXT "job.json";
       GET "http://templates.example/dot.img";
       GET "http://templates.example/dot.img";
       SAVE "out.img" (composite (to_RGBA clear_dot) (to_RGBA clear_dot))].
Proof.
  apply (same_url_is_fetched_twice (L := library)
           (world same_url) "job.json" "out.img" (descriptor same_url)
           "http://templates.example/dot.img" clear_dot
           (image_bytes (composite (to_RGBA clear_dot) (to_RGBA clear_dot)))).
  - apply world_job; vm_compute; reflexivity.
  - apply field_set_descriptor; [vm_compute; reflexivity|discriminate].
  - apply field_set_descriptor; [vm_compute; reflexivity|discriminate].
  - reflexivity.
  - exists 200%Z, (image_bytes clear_dot).
    split; [reflexivity|]. split; [reflexivity|]. vm_compute. reflexivity.
  - apply image_bytes_encode. vm_compute. eexists. reflexivity.
Defined.

(** The run on both fields created the output file, in its save. *)
Lemma only_the_output_path_is_written_witness :
  argv (world both_fields) !! 2%nat = Some "out.img" /\
  exists image,
    last (events (world both_fields) (main (world both_fields)).2)
      = Some (SAVE "out.img" image).
Proof.
  apply (only_the_output_path_is_written (L := library)
           (world both_fields) "out.img").
  replace (files (main (world both_fields)).2 !! "out.img")
    with (Some (image_bytes (composite (to_RGBA red_square) (to_RGBA clear_dot))))
    by (vm_compute; reflexivity).
  replace (files (world both_fields) !! "out.img") with (@None (list byte))
    by (vm_compute; reflexivity).
  discriminate.
Defined.

(** The run on both fields ended well: so it saved. *)
Lemma success_saves_an_image_of_the_template_size_witness :
  exists out image bytes,
    last (events (world both_fields) (main (world both_fields)).2)
      = Some (SAVE out image) /\
    files (main (world both_fields)).2
      = <[out := bytes]> (files (world both_fields)).
Proof.
  destruct (success_saves_an_image_of_the_template_size (L := library)
              (world both_fields) (main (world both_fields)).2)
    as (inp & out & d & u & rawbg & image & bytes
        & _ & _ & _ & Hlast & _ & Hfiles & _).
  - apply run_pair. vm_compute. reflexivity.
  - exists out, image, bytes. split; [exact Hlast|exact Hfiles].
Defined.

(** A background of 10 by 10 pixels comes out as it went in. *)
Lemma small_background_is_saved_unchanged_witness :
  composite (to_RGBA small_square) (to_RGBA clear_dot) = to_RGBA small_square /\
  (main (small_world small_fields)).1 = Ok tt.
Proof.
  destruct (small_background_is_saved_unchanged (L := library)
              (small_world small_fields) "job.json" "out.img"
              (descriptor small_fields)
              "http://templates.example/small.img" "dot.img"
              small_square clear_dot (image_bytes (to_RGBA small_square)))
    as (Hsame & Hrun).
  - exists "generate_image.py", (object_text small_fields).
    split; [reflexivity|].
    split; [|split; vm_compute; reflexivity].
    unfold small_world, disk. simpl. apply lookup_insert_eq.
  - apply field_set_descriptor; [vm_compute; reflexivity|discriminate].
  - apply field_set_descriptor; [vm_compute; reflexivity|discriminate].
  - exists 200%Z, (image_bytes small_square).
    split; [reflexivity|]. split; [reflexivity|]. vm_compute. reflexivity.
  - exists (image_bytes clear_dot). split; [|vm_compute; reflexivity].
    unfold small_world, disk. simpl.
    rewrite lookup_insert_ne by discriminate. apply lookup_insert_eq.
  - left. simpl. lia.
  - apply image_bytes_encode. vm_compute. eexists. reflexivity.
  - split; [exact Hsame|now rewrite Hrun].
Defined.


End VariantRuns.
